(** * Concentrated-liquidity swaps: a shallow embedding of
      [x/concentrated-liquidity/swaps.go]

    The file follows the Go source function by function.  The keeper's
    collaborators that live outside [swaps.go] (the [types] package, the
    pool and tick stores, the bank) are gathered in the class
    [Collaborators]; every definition and theorem of the development is
    parametric in it.  Module [Example] instantiates the class with a small
    constant-liquidity market so that the orchestrators can be run on
    concrete inputs.

    Numbers.  [sdk.Dec] is a decimal with 18 fractional digits held in a
    big integer: a value [d] is represented by the integer [d * 10^18].
    [sdk.Int] is a big integer, [int64] a 64-bit two's complement integer
    whose wrap-around is written out in [wrap64].  The 315-bit ceiling above
    which [sdk.Dec] gives up is far beyond any amount or price of the
    protocol and is left out. *)

From Stdlib Require Import ZArith List String Ascii Bool Lia.
Import ListNotations.

Local Open Scope string_scope.
Local Open Scope Z_scope.

(** ** Outcomes of a call *)

(** The Go functions return [(values, error)], may abort with a run-time
    panic, and contain loops without an iteration bound. *)

Definition Dec := Z.

Inductive error : Type :=
| ErrSameDenomInOut                         (* "cannot trade same denomination in and out" *)
| ErrInvalidMathApprox                      (* "token amount must be positive" *)
| ErrLimitMinAmount (tokenOutDenom : string)(* "%s token is lesser than min amount" *)
| ErrSqrtPriceLimit                         (* "issue calculating square root of price limit" *)
| ErrInvalidPriceLimit (priceLimit : Dec)   (* "invalid price limit (%s)" *)
| ErrTokenInNotInPool (denom : string)      (* "tokenIn (%s) does not match any asset in pool" *)
| ErrTokenOutDenomNotInPool (denom : string)(* "tokenOutDenom (%s) does not match any asset in pool" *)
| ErrTokenInSameAsTokenOut (i o : string)   (* "tokenIn (%s) cannot be the same as tokenOut (%s)" *)
| ErrNoMoreTicks                            (* "there are no more ticks initialized to fill the swap" *)
| ErrNextTickToSqrtPrice (nextTick : Z)     (* "could not convert next tick (%v) to nextSqrtPrice" *)
| ErrCalculatedTokenInTooLarge              (* "tokenIn calculated is larger than tokenIn provided" *)
| ErrTokenOutNotInPool (denom : string)     (* "tokenOut denom (%s) does not match any asset in pool" *)
| ErrTokenInDenomNotInPool (denom : string) (* "tokenInDenom (%s) does not match any asset in pool" *)
| ErrTokenOutSameAsTokenIn (o i : string)   (* "tokenOut (%s) cannot be the same as tokenIn (%s)" *)
| ErrMinPrice (minPrice cur : Dec)          (* "minPrice (%s) must be less than current price (%s)" *)
| ErrMaxPrice (maxPrice cur : Dec)          (* "maxPrice (%s) must be greater than current price (%s)" *)
| ErrSqrtMinPrice                           (* "issue calculating square root of minPrice" *)
| ErrSqrtMaxPrice                           (* "issue calculating square root of maxPrice" *)
| ErrNoLiquidity                            (* "no liquidity available, cannot swap" *)
| ErrCollaborator (msg : string).           (* an error value made outside swaps.go *)

Inductive panic : Type :=
| NilDereference      (* a method called on the zero value Dec{} *)
| DivisionByZero      (* Dec.Quo by zero *)
| Int64OutOfRange     (* Int.Int64 on a value that does not fit *)
| InvalidCoin.        (* sdk.NewCoin on a bad denomination or a negative amount *)

Inductive result (A : Type) : Type :=
| Ok (a : A)
| Err (e : error)
| Panic (p : panic)
| OutOfFuel.          (* the loop had not finished when the fuel ran out *)

Arguments Ok {A} a.
Arguments Err {A} e.
Arguments Panic {A} p.
Arguments OutOfFuel {A}.

Definition isOk {A} (r : result A) : bool :=
  match r with Ok _ => true | _ => false end.

Definition bind {A B} (r : result A) (k : A -> result B) : result B :=
  match r with
  | Ok a => k a
  | Err e => Err e
  | Panic p => Panic p
  | OutOfFuel => OutOfFuel
  end.

(** [orErr r e]: the Go idiom [if err != nil { return ..., e }] that
    replaces the callee's error by a new one. *)
Definition orErr {A} (r : result A) (e : error) : result A :=
  match r with
  | Err _ => Err e
  | other => other
  end.

Declare Scope result_scope.
Delimit Scope result_scope with result.
Notation "x <- c ;; k" := (bind c (fun x => k))
  (at level 100, c at next level, right associativity) : result_scope.
Notation "' pat <- c ;; k" := (bind c (fun x => match x with pat => k end))
  (at level 100, pat pattern, c at next level, right associativity) : result_scope.
Local Open Scope result_scope.

(** ** [sdk.Dec], [sdk.Int], [int64] *)

Module DecOps.

Definition precisionReuse : Z := 1000000000000000000.
Definition fivePrecision : Z := 500000000000000000.

(** Banker's rounding of a scaled integer to the unit above it: the
    sign is taken off, the quotient and remainder by [10^18] are
    compared with one half, a tie goes to the even quotient. *)
Definition chopPrecisionAndRound (d : Z) : Z :=
  let a := Z.abs d in
  let quo := Z.quot a precisionReuse in
  let rem := Z.rem a precisionReuse in
  let r :=
    if rem =? 0 then quo
    else match rem ?= fivePrecision with
         | Lt => quo
         | Gt => quo + 1
         | Eq => if Z.even quo then quo else quo + 1
         end in
  if d <? 0 then - r else r.

Definition ZeroDec : Dec := 0.
Definition OneDec : Dec := precisionReuse.
Definition NewDec (i : Z) : Dec := i * precisionReuse.
Definition ToDec (i : Z) : Dec := i * precisionReuse.
(** [NewDecWithPrec i prec] is [i * 10^(18 - prec)]. *)
Definition NewDecWithPrec (i : Z) (prec : Z) : Dec := i * 10 ^ (18 - prec).

Definition Add (a b : Dec) : Dec := a + b.
Definition Sub (a b : Dec) : Dec := a - b.
Definition Neg (a : Dec) : Dec := - a.
Definition Mul (a b : Dec) : Dec := chopPrecisionAndRound (a * b).
Definition Quo (a b : Dec) : result Dec :=
  if b =? 0 then Panic DivisionByZero
  else Ok (chopPrecisionAndRound (Z.quot (a * precisionReuse * precisionReuse) b)).
(** [d.Power(2)]: the square-and-multiply loop of the sdk does one
    squaring and one multiplication by one. *)
Definition Power2 (d : Dec) : Dec := Mul (Mul d d) OneDec.

Definition GT (a b : Dec) : bool := b <? a.
Definition LT (a b : Dec) : bool := a <? b.
Definition GTE (a b : Dec) : bool := b <=? a.
Definition LTE (a b : Dec) : bool := a <=? b.
Definition Equal (a b : Dec) : bool := a =? b.
Definition MinDec (a b : Dec) : Dec := if a <? b then a else b.

Definition RoundInt (d : Dec) : Z := chopPrecisionAndRound d.
Definition TruncateInt (d : Dec) : Z := Z.quot d precisionReuse.

(** The least integer not below [d]: what rounding up would return. *)
Definition CeilInt (d : Dec) : Z := - ((- d) / precisionReuse).

End DecOps.
Import DecOps.

(* Decimal operations are unfolded by name, never by [simpl]. *)
Arguments chopPrecisionAndRound : simpl never.
Arguments NewDec : simpl never.
Arguments ToDec : simpl never.
Arguments NewDecWithPrec : simpl never.
Arguments Add : simpl never.
Arguments Sub : simpl never.
Arguments Neg : simpl never.
Arguments Mul : simpl never.
Arguments Quo : simpl never.
Arguments Power2 : simpl never.
Arguments GT : simpl never.
Arguments LT : simpl never.
Arguments GTE : simpl never.
Arguments LTE : simpl never.
Arguments Equal : simpl never.
Arguments MinDec : simpl never.
Arguments RoundInt : simpl never.
Arguments TruncateInt : simpl never.

Definition MinInt64 : Z := - 2 ^ 63.
Definition MaxInt64 : Z := 2 ^ 63 - 1.

Definition wrap64 (z : Z) : Z := (z + 2 ^ 63) mod 2 ^ 64 - 2 ^ 63.

(** [int64] subtraction. *)
Definition sub64 (a b : Z) : Z := wrap64 (a - b).

(** [Int.Int64()]. *)
Definition Int64 (i : Z) : result Z :=
  if (MinInt64 <=? i) && (i <=? MaxInt64) then Ok i else Panic Int64OutOfRange.

(** ** Coins *)

Record Coin : Type := mkCoin { Denom : string; Amount : Z }.

Definition isLetter (c : ascii) : bool :=
  let n := Z.of_nat (nat_of_ascii c) in
  ((65 <=? n) && (n <=? 90)) || ((97 <=? n) && (n <=? 122)).

Definition isDigit (c : ascii) : bool :=
  let n := Z.of_nat (nat_of_ascii c) in
  (48 <=? n) && (n <=? 57).

Definition isDenomChar (c : ascii) : bool :=
  isLetter c || isDigit c ||
  Ascii.eqb c "/"%char || Ascii.eqb c ":"%char || Ascii.eqb c "."%char ||
  Ascii.eqb c "_"%char || Ascii.eqb c "-"%char.

Fixpoint allChars (f : ascii -> bool) (s : string) : bool :=
  match s with
  | EmptyString => true
  | String c rest => f c && allChars f rest
  end.

(** [sdk.ValidateDenom]: the pattern [[a-zA-Z][a-zA-Z0-9/:._-]{2,127}]. *)
Definition ValidateDenom (d : string) : bool :=
  match d with
  | EmptyString => false
  | String c rest =>
      isLetter c && allChars isDenomChar rest &&
      (2 <=? Z.of_nat (String.length rest)) && (Z.of_nat (String.length rest) <=? 127)
  end.

(** [sdk.NewCoin] validates the coin it builds and panics otherwise. *)
Definition NewCoin (denom : string) (amount : Z) : result Coin :=
  if ValidateDenom denom && (0 <=? amount) then Ok (mkCoin denom amount)
  else Panic InvalidCoin.

(** ** Pools and collaborators *)

Definition AccAddress := string.

(** Modelled from the spec: the concentrated pool struct of the [types]
    package, which is not part of [swaps.go]; the fields are those of the
    spec's data model (identity, the two denominations, current square-root
    price, current tick, current active liquidity) and the account address
    read by [updatePoolForSwap]. *)
Record Pool : Type := mkPool {
  Id : N;
  Address : AccAddress;
  Token0 : string;
  Token1 : string;
  CurrentSqrtPrice : Dec;
  CurrentTick : Z;
  Liquidity : Dec
}.

(** Modelled from the spec: [types.AddLiquidity], absent from [swaps.go];
    the spec has the caller add the signed delta to the running liquidity
    total. *)
Definition AddLiquidity (liquidityA liquidityB : Dec) : Dec :=
  Add liquidityA liquidityB.

(** What [swaps.go] calls and does not define.  [Ctx] is the state behind
    [sdk.Context]: pool store, tick store, balances, emitted events.  A
    collaborator that returns an error returns no new state. *)
Class Collaborators : Type := {
  Ctx : Type;
  (* keeper *)
  getPoolById : Ctx -> N -> result Pool;
  setPool : Ctx -> Pool -> result Ctx;
  NextInitializedTick : Ctx -> N -> Z -> bool -> Z * bool;
  CrossTick : Ctx -> N -> Z -> result Dec;
  SendCoins : Ctx -> AccAddress -> AccAddress -> list Coin -> result Ctx;
  EmitSwapEvent : Ctx -> AccAddress -> N -> Coin -> Coin -> Ctx;
  (* pool method; a nil liquidity is [None] *)
  ApplySwap : Ctx -> Pool -> N -> option Dec -> Z -> Dec -> result Pool;
  (* package types *)
  ComputeSwapStep : Dec -> Dec -> Dec -> Dec -> bool -> Dec * Dec * Dec;
  PriceToTick : Dec -> Z;
  TickToSqrtPrice : Z -> result Dec;
  MinSqrtRatio : Dec;
  MaxSqrtRatio : Dec;
  Liquidity0 : Z -> Dec -> Dec -> Dec;
  Liquidity1 : Z -> Dec -> Dec -> Dec;
  (* sdk.Dec.ApproxSqrt *)
  ApproxSqrt : Dec -> result Dec
}.

(** ** Swap state *)

(** The Go struct has five [sdk] values.  A composite literal that omits a
    field leaves it at its zero value; for [liquidity] that is [Dec{}],
    whose big-integer pointer is nil, here [None]. *)
Record SwapState : Type := mkSwapState {
  amountSpecifiedRemaining : Dec;
  amountCalculated : Dec;
  sqrtPrice : Dec;
  tick : Z;
  liquidity : option Dec
}.

(** Reading a [Dec] through its pointer. *)
Definition deref (d : option Dec) : result Dec :=
  match d with
  | Some v => Ok v
  | None => Panic NilDereference
  end.

(** ** The exact-in orchestrator *)

Section ExactIn.
Context `{C : Collaborators}.

(** The tolerance of the exact-in loop, [sdk.MustNewDecFromStr("0.0000001")]. *)
Definition epsilonOutGivenIn : Dec := 100000000000.

(** The guard of the price-limit check (lines 112-113). *)
Definition invalidPriceLimit (zeroForOne : bool) (sqrtPriceLimit : Dec) (p : Pool) : bool :=
  (zeroForOne && (GT sqrtPriceLimit (CurrentSqrtPrice p) || LT sqrtPriceLimit MinSqrtRatio)) ||
  (negb zeroForOne && (LT sqrtPriceLimit (CurrentSqrtPrice p) || GT sqrtPriceLimit MaxSqrtRatio)).

(** The loop guard (line 143). *)
Definition condOutGivenIn (sqrtPriceLimit : Dec) (swapState : SwapState) : bool :=
  GT (amountSpecifiedRemaining swapState) epsilonOutGivenIn &&
  negb (Equal (sqrtPrice swapState) sqrtPriceLimit).

(** One pass through the loop body (lines 144-213).  [ComputeSwapStep]
    and [AddLiquidity] are handed the working liquidity and read it. *)
Definition stepOutGivenIn (ctx : Ctx) (p : Pool) (poolId : N) (zeroForOne : bool)
    (sqrtPriceLimit : Dec) (swapState : SwapState) : result SwapState :=
  let sqrtPriceStart := sqrtPrice swapState in
  tick64 <- Int64 (tick swapState) ;;
  let '(nextTick, ok) := NextInitializedTick ctx poolId tick64 zeroForOne in
  if negb ok then Err ErrNoMoreTicks else
  nextSqrtPrice <- orErr (TickToSqrtPrice nextTick) (ErrNextTickToSqrtPrice nextTick) ;;
  let sqrtPriceTarget :=
    if (zeroForOne && LT nextSqrtPrice sqrtPriceLimit) ||
       (negb zeroForOne && GT nextSqrtPrice sqrtPriceLimit)
    then sqrtPriceLimit else nextSqrtPrice in
  liq <- deref (liquidity swapState) ;;
  let '(sqrtPrice', amountIn, amountOut) :=
    ComputeSwapStep (sqrtPrice swapState) sqrtPriceTarget liq
                    (amountSpecifiedRemaining swapState) zeroForOne in
  let remaining' := Sub (amountSpecifiedRemaining swapState) amountIn in
  let calculated' := Add (amountCalculated swapState) amountOut in
  if Equal nextSqrtPrice sqrtPrice' then
    liquidityNet <- CrossTick ctx (Id p) nextTick ;;
    let liquidityNet := if zeroForOne then Neg liquidityNet else liquidityNet in
    let newLiquidity := AddLiquidity liq liquidityNet in
    Ok (mkSwapState remaining' calculated' sqrtPrice'
          (if zeroForOne then sub64 nextTick 1 else nextTick)
          (Some newLiquidity))
  else if negb (Equal sqrtPriceStart sqrtPrice') then
    Ok (mkSwapState remaining' calculated' sqrtPrice'
          (PriceToTick (Power2 sqrtPrice')) (liquidity swapState))
  else
    Ok (mkSwapState remaining' calculated' sqrtPrice'
          (tick swapState) (liquidity swapState)).

(** The [for] loop (line 143); each pass costs one unit of fuel. *)
Fixpoint loopOutGivenIn (fuel : nat) (ctx : Ctx) (p : Pool) (poolId : N)
    (zeroForOne : bool) (sqrtPriceLimit : Dec) (swapState : SwapState)
    : result SwapState :=
  if condOutGivenIn sqrtPriceLimit swapState then
    match fuel with
    | O => OutOfFuel
    | S fuel' =>
        swapState' <- stepOutGivenIn ctx p poolId zeroForOne sqrtPriceLimit swapState ;;
        loopOutGivenIn fuel' ctx p poolId zeroForOne sqrtPriceLimit swapState'
    end
  else Ok swapState.

(** The state the loop starts from (lines 131-137). *)
Definition initOutGivenIn (p : Pool) (tokenAmountInAfterFee : Dec) : SwapState :=
  let curSqrtPrice := CurrentSqrtPrice p in
  mkSwapState tokenAmountInAfterFee ZeroDec curSqrtPrice
              (PriceToTick (Power2 curSqrtPrice)) (Some (Liquidity p)).

(** The checks that precede the loop (lines 105-127), in the order of
    the source. *)
Definition checkOutGivenIn (p : Pool) (tokenInMin : Coin) (tokenOutDenom : string)
    (priceLimit : Dec) : result Dec :=
  let asset0 := Token0 p in
  let asset1 := Token1 p in
  let zeroForOne := String.eqb (Denom tokenInMin) asset0 in
  sqrtPriceLimit <- orErr (ApproxSqrt priceLimit) ErrSqrtPriceLimit ;;
  if invalidPriceLimit zeroForOne sqrtPriceLimit p then
    Err (ErrInvalidPriceLimit priceLimit)
  else if negb (String.eqb (Denom tokenInMin) asset0) &&
          negb (String.eqb (Denom tokenInMin) asset1) then
    Err (ErrTokenInNotInPool (Denom tokenInMin))
  else if negb (String.eqb tokenOutDenom asset0) &&
          negb (String.eqb tokenOutDenom asset1) then
    Err (ErrTokenOutDenomNotInPool tokenOutDenom)
  else if String.eqb (Denom tokenInMin) tokenOutDenom then
    Err (ErrTokenInSameAsTokenOut (Denom tokenInMin) tokenOutDenom)
  else Ok sqrtPriceLimit.

(** [tokenInMin.Amount.ToDec().Mul(sdk.OneDec().Sub(swapFee))] (line 98). *)
Definition amountAfterFee (tokenInMin : Coin) (swapFee : Dec) : Dec :=
  Mul (ToDec (Amount tokenInMin)) (Sub OneDec swapFee).

(** The two coins built after the loop (lines 218-222). *)
Definition coinsOutGivenIn (tokenInMin : Coin) (tokenOutDenom : string)
    (tokenAmountInAfterFee : Dec) (swapState : SwapState) : result (Coin * Coin) :=
  let amt0 := RoundInt (Sub tokenAmountInAfterFee (amountSpecifiedRemaining swapState)) in
  let amt1 := TruncateInt (amountCalculated swapState) in
  tokenIn <- NewCoin (Denom tokenInMin) amt0 ;;
  tokenOut <- NewCoin tokenOutDenom amt1 ;;
  Ok (tokenIn, tokenOut).

(** [CalcOutAmtGivenIn] returns
    [(tokenIn, tokenOut, updatedTick, updatedLiquidity, updatedSqrtPrice)]. *)
Definition CalcOutAmtGivenIn (fuel : nat) (ctx : Ctx) (tokenInMin : Coin)
    (tokenOutDenom : string) (swapFee priceLimit : Dec) (poolId : N)
    : result (Coin * Coin * Z * option Dec * Dec) :=
  p <- getPoolById ctx poolId ;;
  let tokenAmountInAfterFee := amountAfterFee tokenInMin swapFee in
  let zeroForOne := String.eqb (Denom tokenInMin) (Token0 p) in
  sqrtPriceLimit <- checkOutGivenIn p tokenInMin tokenOutDenom priceLimit ;;
  swapState <- loopOutGivenIn fuel ctx p poolId zeroForOne sqrtPriceLimit
                 (initOutGivenIn p tokenAmountInAfterFee) ;;
  '(tokenIn, tokenOut) <- coinsOutGivenIn tokenInMin tokenOutDenom
                            tokenAmountInAfterFee swapState ;;
  Ok (tokenIn, tokenOut, tick swapState, liquidity swapState, sqrtPrice swapState).

End ExactIn.

(** ** Calls that write to the store *)

(** A keeper method that writes returns its result together with the
    store as it has left it; an error does not undo earlier writes. *)
Definition M `{C : Collaborators} (A : Type) : Type := Ctx -> result A * Ctx.

Section Stateful.
Context `{C : Collaborators}.

Definition ret {A} (a : A) : M A := fun ctx => (Ok a, ctx).

Definition fail {A} (e : error) : M A := fun ctx => (Err e, ctx).

Definition bindM {A B} (m : M A) (k : A -> M B) : M B :=
  fun ctx =>
    match m ctx with
    | (Ok a, ctx') => k a ctx'
    | (Err e, ctx') => (Err e, ctx')
    | (Panic p, ctx') => (Panic p, ctx')
    | (OutOfFuel, ctx') => (OutOfFuel, ctx')
    end.

(** A call that only reads the store. *)
Definition reads {A} (f : Ctx -> result A) : M A := fun ctx => (f ctx, ctx).

(** A call that replaces the store when it succeeds. *)
Definition writes (f : Ctx -> result Ctx) : M unit :=
  fun ctx =>
    match f ctx with
    | Ok ctx' => (Ok tt, ctx')
    | Err e => (Err e, ctx)
    | Panic p => (Panic p, ctx)
    | OutOfFuel => (OutOfFuel, ctx)
    end.

End Stateful.

Declare Scope keeper_scope.
Delimit Scope keeper_scope with keeper.
Notation "x <-- c ;; k" := (bindM c (fun x => k))
  (at level 100, c at next level, right associativity) : keeper_scope.
Notation "c ;;; k" := (bindM c (fun _ => k))
  (at level 100, right associativity) : keeper_scope.

Section Swaps.
Context `{C : Collaborators}.
Local Open Scope keeper_scope.

(** [SwapOutAmtGivenIn] (lines 228-254). *)
Definition SwapOutAmtGivenIn (fuel : nat) (tokenIn : Coin) (tokenOutDenom : string)
    (swapFee priceLimit : Dec) (poolId : N) : M Coin :=
  calc <-- reads (fun ctx =>
             CalcOutAmtGivenIn fuel ctx tokenIn tokenOutDenom swapFee priceLimit poolId) ;;
  let '(calcTokenIn, calcTokenOut, newCurrentTick, newLiquidity, newSqrtPrice) := calc in
  pool <-- reads (fun ctx => getPoolById ctx poolId) ;;
  pool' <-- reads (fun ctx =>
              ApplySwap ctx pool poolId newLiquidity newCurrentTick newSqrtPrice) ;;
  writes (fun ctx => setPool ctx pool') ;;;
  if Amount calcTokenIn >? Amount tokenIn then fail ErrCalculatedTokenInTooLarge
  else ret calcTokenOut.

(** [updatePoolForSwap] (lines 394-422). *)
Definition updatePoolForSwap (pool : Pool) (sender : AccAddress)
    (tokenIn tokenOut : Coin) : M unit :=
  writes (fun ctx => SendCoins ctx sender (Address pool) [tokenIn]) ;;;
  writes (fun ctx => SendCoins ctx (Address pool) sender [tokenOut]) ;;;
  writes (fun ctx => Ok (EmitSwapEvent ctx sender (Id pool) tokenIn tokenOut)) ;;;
  ret tt.

(** [SwapExactAmountIn] (lines 15-64).  Of [poolI] the call reads the
    identifier only. *)
Definition SwapExactAmountIn (fuel : nat) (sender : AccAddress) (poolI : Pool)
    (tokenIn : Coin) (tokenOutDenom : string) (tokenOutMinAmount : Z)
    (swapFee : Dec) : M Z :=
  if String.eqb (Denom tokenIn) tokenOutDenom then fail ErrSameDenomInOut else
  pool <-- reads (fun ctx => getPoolById ctx (Id poolI)) ;;
  let asset0 := Token0 pool in
  let zeroForOne := String.eqb (Denom tokenIn) asset0 in
  tokenOutCoin <--
    (if zeroForOne
     then SwapOutAmtGivenIn fuel tokenIn tokenOutDenom swapFee (NewDec 1) (Id pool)
     else SwapOutAmtGivenIn fuel tokenIn tokenOutDenom swapFee (NewDec 999999999999)
                            (Id pool)) ;;
  let tokenOutAmount := Amount tokenOutCoin in
  if negb (0 <? tokenOutAmount) then fail ErrInvalidMathApprox
  else if tokenOutAmount <? tokenOutMinAmount then fail (ErrLimitMinAmount tokenOutDenom)
  else
    updatePoolForSwap pool sender tokenIn tokenOutCoin ;;;
    ret tokenOutAmount.

(** [SwapExactAmountOut] (lines 66-76): the body is the single statement
    [return sdk.Int{}, nil].  [sdk.Int{}] is the zero value of the struct,
    an integer without a number behind it, here [None]. *)
Definition SwapExactAmountOut (sender : AccAddress) (poolId : Pool)
    (tokenInDenom : string) (tokenInMaxAmount : Z) (tokenOut : Coin)
    (swapFee : Dec) : M (option Z) :=
  ret None.

End Swaps.

(** ** The exact-out orchestrator *)

Section ExactOut.
Context `{C : Collaborators}.
Local Open Scope keeper_scope.

(** The tolerance of the exact-out loop, [sdk.NewDecWithPrec(1, 6)]. *)
Definition epsilonInGivenOut : Dec := NewDecWithPrec 1 6.

Definition IsNil (d : option Dec) : bool :=
  match d with None => true | Some _ => false end.

(** The loop guard (line 318). *)
Definition condInGivenOut (swapState : SwapState) : bool :=
  GT (amountSpecifiedRemaining swapState) epsilonInGivenOut.

(** One pass through the loop body (lines 319-361).  The square-root
    price returned by [ComputeSwapStep] stays in a local variable. *)
Definition stepInGivenOut (ctx : Ctx) (p : Pool) (poolId : N) (zeroForOne : bool)
    (swapFee liq : Dec) (swapState : SwapState) : result SwapState :=
  tick64 <- Int64 (tick swapState) ;;
  let '(nextTick, ok) := NextInitializedTick ctx poolId tick64 zeroForOne in
  if negb ok then Err ErrNoMoreTicks else
  nextSqrtPrice <- TickToSqrtPrice nextTick ;;
  let '(sqrtPrice', amountIn, amountOut) :=
    ComputeSwapStep (sqrtPrice swapState) nextSqrtPrice liq
                    (amountSpecifiedRemaining swapState) zeroForOne in
  let remaining' := Sub (amountSpecifiedRemaining swapState) amountIn in
  amountOutWithFee <- Quo amountOut (Sub OneDec swapFee) ;;
  let calculated' := Add (amountCalculated swapState) amountOutWithFee in
  if Equal (sqrtPrice swapState) sqrtPrice' then
    liquidityDelta <- CrossTick ctx (Id p) nextTick ;;
    let liquidityDelta := if negb zeroForOne then Neg liquidityDelta else liquidityDelta in
    old <- deref (liquidity swapState) ;;
    let liquidity' := Some (Add old liquidityDelta) in
    new <- deref liquidity' ;;
    if LTE new ZeroDec || IsNil liquidity' then Err ErrNoLiquidity else
    Ok (mkSwapState remaining' calculated' (sqrtPrice swapState)
          (if negb zeroForOne then sub64 nextTick 1 else nextTick)
          liquidity')
  else
    Ok (mkSwapState remaining' calculated' (sqrtPrice swapState)
          (PriceToTick (Power2 sqrtPrice')) (liquidity swapState)).

(** The [for] loop (line 318). *)
Fixpoint loopInGivenOut (fuel : nat) (ctx : Ctx) (p : Pool) (poolId : N)
    (zeroForOne : bool) (swapFee liq : Dec) (swapState : SwapState)
    : result SwapState :=
  if condInGivenOut swapState then
    match fuel with
    | O => OutOfFuel
    | S fuel' =>
        swapState' <- stepInGivenOut ctx p poolId zeroForOne swapFee liq swapState ;;
        loopInGivenOut fuel' ctx p poolId zeroForOne swapFee liq swapState'
    end
  else Ok swapState.

(** The state the loop starts from (lines 309-314): the literal names
    four fields, [liquidity] is not among them. *)
Definition initInGivenOut (p : Pool) (tokenOutAmt : Dec) : SwapState :=
  let curSqrtPrice := CurrentSqrtPrice p in
  mkSwapState tokenOutAmt ZeroDec curSqrtPrice
              (PriceToTick (Power2 curSqrtPrice)) None.

(** The validation (lines 271-296); it returns the square roots of the
    two ends of the band. *)
Definition checkInGivenOut (p : Pool) (tokenOut : Coin) (tokenInDenom : string)
    (minPrice maxPrice : Dec) : result (Dec * Dec) :=
  let asset0 := Token0 p in
  let asset1 := Token1 p in
  let curSqrtPrice := CurrentSqrtPrice p in
  if negb (String.eqb (Denom tokenOut) asset0) &&
     negb (String.eqb (Denom tokenOut) asset1) then
    Err (ErrTokenOutNotInPool (Denom tokenOut))
  else if negb (String.eqb tokenInDenom asset0) &&
          negb (String.eqb tokenInDenom asset1) then
    Err (ErrTokenInDenomNotInPool tokenInDenom)
  else if String.eqb (Denom tokenOut) tokenInDenom then
    Err (ErrTokenOutSameAsTokenIn (Denom tokenOut) tokenInDenom)
  else if GTE minPrice (Power2 curSqrtPrice) then
    Err (ErrMinPrice minPrice (Power2 curSqrtPrice))
  else if LTE maxPrice (Power2 curSqrtPrice) then
    Err (ErrMaxPrice maxPrice (Power2 curSqrtPrice))
  else
    sqrtPLowerTick <- orErr (ApproxSqrt minPrice) ErrSqrtMinPrice ;;
    sqrtPUpperTick <- orErr (ApproxSqrt maxPrice) ErrSqrtMaxPrice ;;
    Ok (sqrtPLowerTick, sqrtPUpperTick).

(** [CalcInAmtGivenOut] returns [(tokenIn, liquidity, tick, sqrtPrice)]. *)
Definition CalcInAmtGivenOut (fuel : nat) (ctx : Ctx) (tokenOut : Coin)
    (tokenInDenom : string) (swapFee minPrice maxPrice : Dec) (poolId : N)
    : result (Coin * option Dec * Z * Dec) :=
  let tokenOutAmt := ToDec (Amount tokenOut) in
  p <- getPoolById ctx poolId ;;
  let zeroForOne := String.eqb (Denom tokenOut) (Token0 p) in
  let curSqrtPrice := CurrentSqrtPrice p in
  '(sqrtPLowerTick, sqrtPUpperTick) <-
      checkInGivenOut p tokenOut tokenInDenom minPrice maxPrice ;;
  let amountETH := 1000000 in
  let amountUSDC := 5000000000 in
  let liq0 := Liquidity0 amountETH curSqrtPrice sqrtPUpperTick in
  let liq1 := Liquidity1 amountUSDC curSqrtPrice sqrtPLowerTick in
  let liq := MinDec liq0 liq1 in
  swapState <- loopInGivenOut fuel ctx p poolId zeroForOne swapFee liq
                 (initInGivenOut p tokenOutAmt) ;;
  tokenIn <- NewCoin tokenInDenom (RoundInt (amountCalculated swapState)) ;;
  Ok (tokenIn, liquidity swapState, tick swapState, sqrtPrice swapState).

(** [SwapInAmtGivenOut] (lines 367-389). *)
Definition SwapInAmtGivenOut (fuel : nat) (tokenOut : Coin) (tokenInDenom : string)
    (swapFee minPrice maxPrice : Dec) (poolId : N) : M Coin :=
  calc <-- reads (fun ctx =>
             CalcInAmtGivenOut fuel ctx tokenOut tokenInDenom swapFee
                               ZeroDec (NewDec 9999999999) poolId) ;;
  let '(tokenInCoin, newLiquidity, newCurrentTick, newCurrentSqrtPrice) := calc in
  pool <-- reads (fun ctx => getPoolById ctx poolId) ;;
  pool' <-- reads (fun ctx =>
              ApplySwap ctx pool poolId newLiquidity newCurrentTick newCurrentSqrtPrice) ;;
  writes (fun ctx => setPool ctx pool') ;;;
  ret tokenInCoin.

End ExactOut.

(** ** Runs of the loops *)

(** The loops without fuel: [runsOutGivenIn ... s s'] when the exact-in
    loop entered in state [s] leaves in state [s'] after finitely many
    passes, each of which succeeded; [runsInGivenOut] is the same for the
    exact-out loop. *)
Section Runs.
Context `{C : Collaborators}.

Inductive runsOutGivenIn (ctx : Ctx) (p : Pool) (poolId : N) (zeroForOne : bool)
    (sqrtPriceLimit : Dec) : SwapState -> SwapState -> Prop :=
| OutGivenIn_exit (s : SwapState) :
    condOutGivenIn sqrtPriceLimit s = false ->
    runsOutGivenIn ctx p poolId zeroForOne sqrtPriceLimit s s
| OutGivenIn_pass (s s1 s' : SwapState) :
    condOutGivenIn sqrtPriceLimit s = true ->
    stepOutGivenIn ctx p poolId zeroForOne sqrtPriceLimit s = Ok s1 ->
    runsOutGivenIn ctx p poolId zeroForOne sqrtPriceLimit s1 s' ->
    runsOutGivenIn ctx p poolId zeroForOne sqrtPriceLimit s s'.

Inductive runsInGivenOut (ctx : Ctx) (p : Pool) (poolId : N) (zeroForOne : bool)
    (swapFee liq : Dec) : SwapState -> SwapState -> Prop :=
| InGivenOut_exit (s : SwapState) :
    condInGivenOut s = false ->
    runsInGivenOut ctx p poolId zeroForOne swapFee liq s s
| InGivenOut_pass (s s1 s' : SwapState) :
    condInGivenOut s = true ->
    stepInGivenOut ctx p poolId zeroForOne swapFee liq s = Ok s1 ->
    runsInGivenOut ctx p poolId zeroForOne swapFee liq s1 s' ->
    runsInGivenOut ctx p poolId zeroForOne swapFee liq s s'.

End Runs.

(** ** A small market to run the orchestrators on *)

(** The collaborators are instantiated by a market whose tick [t] sits at
    square-root price [t], with the constant-liquidity formulas
    [amount1 = L * (b - a)] and [amount0 = L * (b - a) / (a * b)] between
    two square-root prices [a <= b], a tick store that returns the nearest
    initialized tick strictly past the given one, and a bank of balances. *)
Module Example.

Record World : Type := mkWorld {
  pools : list Pool;
  ticks : list (N * Z * Dec);              (* pool, tick index, net liquidity *)
  balances : list (AccAddress * string * Z);
  events : list (AccAddress * N * Coin * Coin)
}.

Definition notFound : error := ErrCollaborator "not found".
Definition insufficientFunds : error := ErrCollaborator "insufficient funds".

Definition getPool (w : World) (id : N) : result Pool :=
  match find (fun p => N.eqb (Id p) id) (pools w) with
  | Some p => Ok p
  | None => Err notFound
  end.

Definition putPool (w : World) (p : Pool) : result World :=
  Ok (mkWorld (p :: filter (fun q => negb (N.eqb (Id q) (Id p))) (pools w))
              (ticks w) (balances w) (events w)).

Definition ticksOf (w : World) (id : N) : list (Z * Dec) :=
  map (fun e => (snd (fst e), snd e))
      (filter (fun e => N.eqb (fst (fst e)) id) (ticks w)).

(** The nearest initialized tick strictly below (when [zeroForOne]) or
    strictly above [from]. *)
Definition nextTick (w : World) (id : N) (from : Z) (zeroForOne : bool) : Z * bool :=
  fold_right
    (fun e acc =>
       let t := fst e in
       let past := if zeroForOne then t <? from else from <? t in
       let nearer :=
         match acc with
         | (best, true) => if zeroForOne then best <? t else t <? best
         | (_, false) => true
         end in
       if past && nearer then (t, true) else acc)
    (0, false) (ticksOf w id).

Definition crossTick (w : World) (id : N) (t : Z) : result Dec :=
  match find (fun e => Z.eqb (fst e) t) (ticksOf w id) with
  | Some e => Ok (snd e)
  | None => Err notFound
  end.

Definition balanceOf (w : World) (a : AccAddress) (d : string) : Z :=
  fold_right
    (fun e acc =>
       if String.eqb (fst (fst e)) a && String.eqb (snd (fst e)) d
       then acc + snd e else acc)
    0 (balances w).

Definition sendCoin (w : World) (from to : AccAddress) (c : Coin) : result World :=
  if balanceOf w from (Denom c) <? Amount c then Err insufficientFunds
  else Ok (mkWorld (pools w) (ticks w)
             ((from, Denom c, - Amount c) :: (to, Denom c, Amount c) :: balances w)
             (events w)).

Fixpoint sendCoins (w : World) (from to : AccAddress) (cs : list Coin) : result World :=
  match cs with
  | [] => Ok w
  | c :: rest => bind (sendCoin w from to c) (fun w' => sendCoins w' from to rest)
  end.

Definition emit (w : World) (sender : AccAddress) (id : N) (i o : Coin) : World :=
  mkWorld (pools w) (ticks w) (balances w) ((sender, id, i, o) :: events w).

Definition applySwap (w : World) (p : Pool) (id : N) (newLiquidity : option Dec)
    (newTick : Z) (newSqrtPrice : Dec) : result Pool :=
  match newLiquidity with
  | Some l => Ok (mkPool (Id p) (Address p) (Token0 p) (Token1 p) newSqrtPrice newTick l)
  | None => Panic NilDereference
  end.

(** Division that is total: zero when the divisor is. *)
Definition quo (a b : Dec) : Dec :=
  match Quo a b with Ok q => q | _ => 0 end.

Definition amount0Delta (l a b : Dec) : Dec := quo (Mul l (Z.abs (b - a))) (Mul a b).
Definition amount1Delta (l a b : Dec) : Dec := Mul l (Z.abs (b - a)).

Definition nextSqrtPriceFromInput (cur l amount : Dec) (zeroForOne : bool) : Dec :=
  if zeroForOne then quo (Mul l cur) (Add l (Mul amount cur))
  else Add cur (quo amount l).

Definition computeSwapStep (cur target l remaining : Dec) (zeroForOne : bool)
    : Dec * Dec * Dec :=
  let full := if zeroForOne then amount0Delta l target cur else amount1Delta l target cur in
  let next := if GTE remaining full then target
              else nextSqrtPriceFromInput cur l remaining zeroForOne in
  if zeroForOne then (next, amount0Delta l next cur, amount1Delta l next cur)
  else (next, amount1Delta l next cur, amount0Delta l next cur).

Definition approxSqrt (d : Dec) : result Dec :=
  if d <? 0 then Err (ErrCollaborator "negative") else Ok (Z.sqrt (d * precisionReuse)).

Definition priceToTick (price : Dec) : Z :=
  TruncateInt (Z.sqrt (price * precisionReuse)).

Definition minTick : Z := 1.
Definition maxTick : Z := 1000000.

Definition tickToSqrtPrice (t : Z) : result Dec :=
  if (minTick <=? t) && (t <=? maxTick) then Ok (NewDec t)
  else Err (ErrCollaborator "tick out of bounds").

Definition liquidity0 (amount : Z) (a b : Dec) : Dec :=
  quo (Mul (ToDec amount) (Mul a b)) (Z.abs (b - a)).
Definition liquidity1 (amount : Z) (a b : Dec) : Dec :=
  quo (ToDec amount) (Z.abs (b - a)).

#[export] Instance market : Collaborators := {|
  Ctx := World;
  getPoolById := getPool;
  setPool := putPool;
  NextInitializedTick := nextTick;
  CrossTick := crossTick;
  SendCoins := sendCoins;
  EmitSwapEvent := emit;
  ApplySwap := applySwap;
  ComputeSwapStep := computeSwapStep;
  PriceToTick := priceToTick;
  TickToSqrtPrice := tickToSqrtPrice;
  MinSqrtRatio := NewDec minTick;
  MaxSqrtRatio := NewDec maxTick;
  Liquidity0 := liquidity0;
  Liquidity1 := liquidity1;
  ApproxSqrt := approxSqrt
|}.

(** Pool 1 trades eth against usdc at square-root price 5.  One position
    of liquidity 1303 spans ticks 2 to 8, a second of liquidity 700
    spans ticks 8 to 12. *)
Definition pool1 : Pool :=
  mkPool 1 "pool1" "eth" "usdc" (NewDec 5) 5 (NewDec 1303).

Definition world : @Ctx market :=
  mkWorld [pool1]
          [(1%N, 2, NewDec 1303); (1%N, 8, NewDec (-603)); (1%N, 12, NewDec (-700))]
          [("alice", "usdc", 10000); ("alice", "eth", 10000);
           ("pool1", "usdc", 1000000); ("pool1", "eth", 1000000)]
          [].

Definition usdc (n : Z) : Coin := mkCoin "usdc" n.
Definition eth (n : Z) : Coin := mkCoin "eth" n.

(** A price limit of 26.01, whose square root is 5.1. *)
Definition limit26 : Dec := 26010000000000000000.



(** A band of width [2 * 10^-16] around the price of pool 1. *)
Definition narrowMin : Dec := NewDec 25 - 100.
Definition narrowMax : Dec := NewDec 25 + 100.

End Example.

(** ** Committed swaps *)

Section Committed.
Context `{C : Collaborators}.

(** The price limit that [SwapExactAmountIn] passes on. *)
Definition limitFor (tokenIn : Coin) (pool : Pool) : Dec :=
  if String.eqb (Denom tokenIn) (Token0 pool) then NewDec 1 else NewDec 999999999999.


End Committed.

(** ** The arbitrage solver's end-block logic *)

(** [x/arbitrage-solver/keeper/endblock.go].  The solver sends one million
    uosmo through a fixed list of pools, here the single pool 1, by way of
    the gamm keeper. *)
Module EndBlock.

(** What [endblock.go] calls on [k.gammKeeper]; [KCtx] is the state behind
    [sdk.Context].  The swap writes to it. *)
Class GammKeeper : Type := {
  KCtx : Type;
  GammPool : Type;
  gammKeeper_GetPool : KCtx -> N -> result GammPool;
  gammKeeper_GetTotalLiquidity : KCtx -> list Coin;
  gammKeeper_SwapExactAmountIn :
    KCtx -> AccAddress -> N -> Coin -> string -> Z -> result Z * KCtx
}.

(** Why a call of [EndBlockLogic] aborts instead of returning. *)
Inductive abort : Type :=
| IndexOutOfRange (i : nat)     (* coins[i] beyond the end of the slice *)
| BadCoin                       (* sdk.NewCoin refused the coin *)
| InCallee (p : panic)          (* a panic inside the gamm keeper *)
| CalleeOutOfFuel.

(** [EndBlockLogic] returns an [error], nil ([None]) included, and leaves a
    store. *)
Inductive outcome (S : Type) : Type :=
| Returns (err : option error) (s : S)
| Aborts (why : abort).

Arguments Returns {S} err s.
Arguments Aborts {S} why.

(** [coins.GetDenomByIndex(i)], that is [coins[i].Denom]. *)
Definition GetDenomByIndex (coins : list Coin) (i : nat) : abort + string :=
  match nth_error coins i with
  | Some c => inr (Denom c)
  | None => inl (IndexOutOfRange i)
  end.

Section Logic.
Context `{K : GammKeeper}.

(** The denomination asked of the swap (lines 24-30): the second
    denomination of the chain-wide total liquidity when the first is the
    token in hand, the first otherwise. *)
Definition tokenOutDenomFor (assetsInPool : list Coin) (curToken : string)
    : abort + string :=
  match GetDenomByIndex assetsInPool 0 with
  | inl a => inl a
  | inr d0 =>
      if String.eqb curToken d0 then GetDenomByIndex assetsInPool 1
      else GetDenomByIndex assetsInPool 0
  end.

(** The [for] loop over [pools] (lines 19-42); it hands back the amount
    received last. *)
Fixpoint swapThrough (pools : list N) (ctx : KCtx) (swapInput : Coin)
    (curToken : string) (receivedAmount : Z) : outcome (KCtx * Z) :=
  match pools with
  | [] => Returns None (ctx, receivedAmount)
  | poolId :: rest =>
      match gammKeeper_GetPool ctx poolId with
      | Err poolErr => Returns (Some poolErr) (ctx, receivedAmount)
      | Panic p => Aborts (InCallee p)
      | OutOfFuel => Aborts CalleeOutOfFuel
      | Ok pool =>
          let assetsInPool := gammKeeper_GetTotalLiquidity ctx in
          match tokenOutDenomFor assetsInPool curToken with
          | inl a => Aborts a
          | inr tokenOutDenom =>
              match gammKeeper_SwapExactAmountIn ctx EmptyString poolId swapInput
                      tokenOutDenom 0 with
              | (Err err, ctx') => Returns (Some err) (ctx', receivedAmount)
              | (Panic p, _) => Aborts (InCallee p)
              | (OutOfFuel, _) => Aborts CalleeOutOfFuel
              | (Ok sentCoins, ctx') =>
                  match NewCoin tokenOutDenom sentCoins with
                  | Ok swapInput' =>
                      swapThrough rest ctx' swapInput' tokenOutDenom sentCoins
                  | _ => Aborts BadCoin
                  end
              end
          end
      end
  end.

(** [EndBlockLogic] (lines 5-50). *)
Definition EndBlockLogic (ctx : KCtx) : outcome KCtx :=
  let startingAmount := 1000000 in
  let curToken := "uosmo" in
  let pools := [1%N] in
  match NewCoin curToken startingAmount with
  | Ok swapInput =>
      let tokenOutMinAmount := 0 in
      let receivedAmount := startingAmount in
      match swapThrough pools ctx swapInput curToken receivedAmount with
      | Returns (Some err) (ctx', _) => Returns (Some err) ctx'
      | Returns None (ctx', receivedAmount') =>
          let priceDifference := startingAmount - receivedAmount' in
          Returns None ctx'
      | Aborts a => Aborts a
      end
  | _ => Aborts BadCoin
  end.

End Logic.

(** A gamm keeper for the runs.  Its store holds the chain-wide total
    liquidity, whether pool 1 exists, and the swaps made so far; a swap pays
    half of what it is given and refuses an empty input. *)
Record Chain : Type := mkChain {
  total : list Coin;
  hasPool1 : bool;
  swaps : list (N * Coin * string)
}.

Definition halving : GammKeeper := {|
  KCtx := Chain;
  GammPool := N;
  gammKeeper_GetPool := fun c id =>
    if hasPool1 c && N.eqb id 1 then Ok id else Err (ErrCollaborator "pool not found");
  gammKeeper_GetTotalLiquidity := total;
  gammKeeper_SwapExactAmountIn := fun c _ id tokenIn denom _ =>
    if Amount tokenIn <=? 0 then (Err ErrInvalidMathApprox, c)
    else (Ok (Amount tokenIn / 2),
          mkChain (total c) (hasPool1 c) ((id, tokenIn, denom) :: swaps c))
|}.

Definition chain : @KCtx halving :=
  mkChain [mkCoin "uatom" 500; mkCoin "uosmo" 900] true [].

Definition chainWithoutPool : @KCtx halving :=
  mkChain [mkCoin "uatom" 500; mkCoin "uosmo" 900] false [].

Definition chainWithoutLiquidity : @KCtx halving :=
  mkChain [] true [].

End EndBlock.

(** ** More scenes on the example market *)

Module Scenes.
Import Example.

(** Pool 1 with no position at all. *)
Definition bareWorld : @Ctx market :=
  mkWorld [pool1] [] [("alice", "usdc", 10000)] [].

(** Pool 1 with its positions, but an account that holds no eth to pay
    out. *)
Definition unfundedWorld : @Ctx market :=
  mkWorld [pool1]
          [(1%N, 2, NewDec 1303); (1%N, 8, NewDec (-603)); (1%N, 12, NewDec (-700))]
          [("alice", "usdc", 10000)]
          [].

(** A pool whose price, the square of 100000, is at the upper end of the
    band that [SwapInAmtGivenOut] passes on. *)
Definition pool2 : Pool :=
  mkPool 2 "pool2" "eth" "usdc" (NewDec 100000) 100000 (NewDec 1303).

Definition farWorld : @Ctx market :=
  mkWorld [pool2] [] [] [].

(** A pool priced below one: its square-root price is one half. *)
Definition pool3 : Pool :=
  mkPool 3 "pool3" "eth" "usdc" 500000000000000000 0 (NewDec 1303).

Definition cheapWorld : @Ctx market :=
  mkWorld [pool3] [(3%N, -5, NewDec 1303); (3%N, 4, NewDec (-1303))]
          [("alice", "eth", 10000)] [].

(** The market with a pool that takes a nil liquidity in its stride: it
    keeps the liquidity it has. *)
Definition keepLiquidity (w : World) (p : Pool) (id : N) (newLiquidity : option Dec)
    (newTick : Z) (newSqrtPrice : Dec) : result Pool :=
  Ok (mkPool (Id p) (Address p) (Token0 p) (Token1 p) newSqrtPrice newTick
             (match newLiquidity with Some l => l | None => Liquidity p end)).

Definition lenient : Collaborators := {|
  Ctx := World;
  getPoolById := getPool;
  setPool := putPool;
  NextInitializedTick := nextTick;
  CrossTick := crossTick;
  SendCoins := sendCoins;
  EmitSwapEvent := emit;
  ApplySwap := keepLiquidity;
  ComputeSwapStep := computeSwapStep;
  PriceToTick := priceToTick;
  TickToSqrtPrice := tickToSqrtPrice;
  MinSqrtRatio := NewDec minTick;
  MaxSqrtRatio := NewDec maxTick;
  Liquidity0 := liquidity0;
  Liquidity1 := liquidity1;
  ApproxSqrt := approxSqrt
|}.

Definition lenientWorld : @Ctx lenient := world.

End Scenes.

(** * Properties *)

(** ** Arithmetic of the embedding *)




Lemma TruncateInt_zero : TruncateInt ZeroDec = 0.
Proof. reflexivity. Qed.

Lemma bind_Ok_inv {A B} (r : result A) (k : A -> result B) (b : B) :
  bind r k = Ok b -> exists a, r = Ok a /\ k a = Ok b.
Proof. destruct r; simpl; intros H; try discriminate. eauto. Qed.

Lemma orErr_Ok_inv {A} (r : result A) (e : error) (a : A) :
  orErr r e = Ok a -> r = Ok a.
Proof. destruct r; simpl; intros H; congruence. Qed.

Lemma NewCoin_Ok_inv (denom : string) (amount : Z) (c : Coin) :
  NewCoin denom amount = Ok c -> c = mkCoin denom amount.
Proof.
  unfold NewCoin. destruct (ValidateDenom denom && (0 <=? amount)); congruence.
Qed.

(** Peels one successful [bind] off a hypothesis. *)
Ltac bind_inv H :=
  let a := fresh "a" in
  let Ha := fresh "Ha" in
  apply bind_Ok_inv in H; destruct H as (a & Ha & H).

(** ** The exact-in orchestrator *)

Section ExactInFacts.
Context `{C : Collaborators}.

Lemma loopOutGivenIn_unfold (fuel : nat) ctx p poolId zeroForOne sqrtPriceLimit swapState :
  loopOutGivenIn (S fuel) ctx p poolId zeroForOne sqrtPriceLimit swapState =
  if condOutGivenIn sqrtPriceLimit swapState
  then bind (stepOutGivenIn ctx p poolId zeroForOne sqrtPriceLimit swapState)
            (loopOutGivenIn fuel ctx p poolId zeroForOne sqrtPriceLimit)
  else Ok swapState.
Proof. reflexivity. Qed.

Lemma loopOutGivenIn_done (fuel : nat) ctx p poolId zeroForOne sqrtPriceLimit swapState :
  condOutGivenIn sqrtPriceLimit swapState = false ->
  loopOutGivenIn fuel ctx p poolId zeroForOne sqrtPriceLimit swapState = Ok swapState.
Proof. intros H. destruct fuel; simpl; rewrite H; reflexivity. Qed.

(** What a successful [CalcOutAmtGivenIn] went through. *)
Lemma CalcOutAmtGivenIn_inv fuel ctx tokenInMin tokenOutDenom swapFee priceLimit poolId
      tokenIn tokenOut updatedTick updatedLiquidity updatedSqrtPrice :
  CalcOutAmtGivenIn fuel ctx tokenInMin tokenOutDenom swapFee priceLimit poolId
    = Ok (tokenIn, tokenOut, updatedTick, updatedLiquidity, updatedSqrtPrice) ->
  exists p sqrtPriceLimit swapState,
    getPoolById ctx poolId = Ok p /\
    checkOutGivenIn p tokenInMin tokenOutDenom priceLimit = Ok sqrtPriceLimit /\
    loopOutGivenIn fuel ctx p poolId (String.eqb (Denom tokenInMin) (Token0 p))
      sqrtPriceLimit (initOutGivenIn p (amountAfterFee tokenInMin swapFee))
      = Ok swapState /\
    tokenIn = mkCoin (Denom tokenInMin)
                (RoundInt (Sub (amountAfterFee tokenInMin swapFee)
                               (amountSpecifiedRemaining swapState))) /\
    tokenOut = mkCoin tokenOutDenom (TruncateInt (amountCalculated swapState)) /\
    updatedTick = tick swapState /\
    updatedLiquidity = liquidity swapState /\
    updatedSqrtPrice = sqrtPrice swapState.
Proof.
  unfold CalcOutAmtGivenIn. intros H.
  bind_inv H. rename a into p.
  bind_inv H. rename a into sqrtPriceLimit.
  bind_inv H. rename a into swapState.
  bind_inv H. destruct a as [cin cout].
  unfold coinsOutGivenIn in Ha2.
  bind_inv Ha2. bind_inv Ha2.
  apply NewCoin_Ok_inv in Ha3, Ha4.
  exists p, sqrtPriceLimit, swapState.
  inversion H; inversion Ha2; subst. repeat split; assumption.
Qed.


End ExactInFacts.

Section ExactInBoundary.
Context `{C : Collaborators}.

(** A request that passes the checks names the pool's two denominations. *)
Lemma checkOutGivenIn_denoms p tokenInMin tokenOutDenom priceLimit sqrtPriceLimit :
  checkOutGivenIn p tokenInMin tokenOutDenom priceLimit = Ok sqrtPriceLimit ->
  (Denom tokenInMin = Token0 p \/ Denom tokenInMin = Token1 p) /\
  (tokenOutDenom = Token0 p \/ tokenOutDenom = Token1 p) /\
  Denom tokenInMin <> tokenOutDenom.
Proof.
  unfold checkOutGivenIn. intros H. bind_inv H.
  destruct (invalidPriceLimit _ _ _); [discriminate|].
  destruct (String.eqb (Denom tokenInMin) (Token0 p)) eqn:Hi0;
    destruct (String.eqb (Denom tokenInMin) (Token1 p)) eqn:Hi1;
    destruct (String.eqb tokenOutDenom (Token0 p)) eqn:Ho0;
    destruct (String.eqb tokenOutDenom (Token1 p)) eqn:Ho1;
    destruct (String.eqb (Denom tokenInMin) tokenOutDenom) eqn:Hio;
    simpl in H; try discriminate;
    rewrite ?String.eqb_eq, ?String.eqb_neq in *; auto.
Qed.

(** The checks pass exactly when the square root of the price limit is
    defined and on the right side of the current price, and the two
    denominations are the pool's, in either order. *)
Lemma checkOutGivenIn_Ok_iff p tokenInMin tokenOutDenom priceLimit sqrtPriceLimit :
  checkOutGivenIn p tokenInMin tokenOutDenom priceLimit = Ok sqrtPriceLimit <->
  ApproxSqrt priceLimit = Ok sqrtPriceLimit /\
  invalidPriceLimit (String.eqb (Denom tokenInMin) (Token0 p)) sqrtPriceLimit p = false /\
  (Denom tokenInMin = Token0 p \/ Denom tokenInMin = Token1 p) /\
  (tokenOutDenom = Token0 p \/ tokenOutDenom = Token1 p) /\
  Denom tokenInMin <> tokenOutDenom.
Proof.
  split.
  - intros H. pose proof (checkOutGivenIn_denoms _ _ _ _ _ H) as (Hi & Ho & Hne).
    unfold checkOutGivenIn in H. bind_inv H. apply orErr_Ok_inv in Ha.
    destruct (invalidPriceLimit _ a p) eqn:Hinv; [discriminate|].
    assert (a = sqrtPriceLimit) as ->.
    { repeat match type of H with
             | (if ?b then _ else _) = _ => destruct b; [discriminate|]
             end.
      congruence. }
    auto.
  - intros (Hsqrt & Hinv & Hi & Ho & Hne).
    unfold checkOutGivenIn. rewrite Hsqrt. simpl. rewrite Hinv.
    apply String.eqb_neq in Hne. rewrite Hne.
    assert (Hin : negb (String.eqb (Denom tokenInMin) (Token0 p)) &&
                  negb (String.eqb (Denom tokenInMin) (Token1 p)) = false).
    { destruct Hi as [Hi | Hi]; rewrite Hi, String.eqb_refl; simpl;
        auto using andb_false_r. }
    assert (Hout : negb (String.eqb tokenOutDenom (Token0 p)) &&
                   negb (String.eqb tokenOutDenom (Token1 p)) = false).
    { destruct Ho as [Ho | Ho]; rewrite Ho, String.eqb_refl; simpl;
        auto using andb_false_r. }
    rewrite Hin, Hout. reflexivity.
Qed.


(** The realized amounts of a successful [CalcOutAmtGivenIn]: the input
    is [RoundInt] of the after-fee input less the remaining amount, the
    output is [TruncateInt] of the accumulated amount. *)
Lemma CalcOutAmtGivenIn_realized_amounts
    fuel ctx tokenInMin tokenOutDenom swapFee priceLimit poolId
    tokenIn tokenOut updatedTick updatedLiquidity updatedSqrtPrice :
  CalcOutAmtGivenIn fuel ctx tokenInMin tokenOutDenom swapFee priceLimit poolId
    = Ok (tokenIn, tokenOut, updatedTick, updatedLiquidity, updatedSqrtPrice) ->
  exists p sqrtPriceLimit swapState,
    getPoolById ctx poolId = Ok p /\
    loopOutGivenIn fuel ctx p poolId (String.eqb (Denom tokenInMin) (Token0 p))
      sqrtPriceLimit (initOutGivenIn p (amountAfterFee tokenInMin swapFee))
      = Ok swapState /\
    Amount tokenIn = RoundInt (Sub (amountAfterFee tokenInMin swapFee)
                                   (amountSpecifiedRemaining swapState)) /\
    Amount tokenOut = TruncateInt (amountCalculated swapState).
Proof.
  intros H. apply CalcOutAmtGivenIn_inv in H.
  destruct H as (p & lim & st & Hp & _ & Hloop & -> & -> & _).
  exists p, lim, st. repeat split; assumption.
Qed.

End ExactInBoundary.

(** [RoundInt] rounds to the nearest integer, not up: on three tenths it
    returns zero where rounding up returns one. *)
Lemma RoundInt_below_CeilInt :
  RoundInt 300000000000000000 = 0 /\ CeilInt 300000000000000000 = 1.
Proof. split; reflexivity. Qed.

(** More generally, on a non-negative amount whose fractional part lies
    strictly between zero and one half, [RoundInt] returns the integer
    part, which is less than the amount. *)
Lemma RoundInt_rounds_down (d : Dec) :
  0 <= d ->
  0 < d mod precisionReuse < fivePrecision ->
  RoundInt d = d / precisionReuse /\ RoundInt d * precisionReuse < d.
Proof.
  intros Hd Hfrac. unfold RoundInt, chopPrecisionAndRound.
  rewrite Z.abs_eq by exact Hd.
  rewrite Z.rem_mod_nonneg by (unfold precisionReuse; lia).
  rewrite Z.quot_div_nonneg by (unfold precisionReuse; lia).
  assert (Hne : (d mod precisionReuse =? 0) = false) by (apply Z.eqb_neq; lia).
  assert (Hlt : (d mod precisionReuse ?= fivePrecision) = Lt)
    by (apply Z.compare_lt_iff; lia).
  assert (Hpos : (d <? 0) = false) by (apply Z.ltb_ge; exact Hd).
  rewrite Hne, Hlt, Hpos. split; [reflexivity|].
  pose proof (Z.div_mod d precisionReuse ltac:(unfold precisionReuse; lia)). lia.
Qed.

(** [TruncateInt] of a non-negative amount is the integer part. *)
Lemma TruncateInt_floor (d : Dec) :
  0 <= d -> TruncateInt d * precisionReuse <= d < (TruncateInt d + 1) * precisionReuse.
Proof.
  unfold TruncateInt, precisionReuse. intros Hd.
  rewrite Z.quot_div_nonneg by lia.
  pose proof (Z.mul_div_le d 1000000000000000000 ltac:(lia)).
  pose proof (Z.mul_succ_div_gt d 1000000000000000000 ltac:(lia)).
  lia.
Qed.

(** Whenever the amount taken from the trader has a fractional part
    strictly between zero and one half, the realized input that
    [CalcOutAmtGivenIn] returns is less than the amount taken. *)
Lemma CalcOutAmtGivenIn_returns_less_than_taken `{C : Collaborators}
    fuel ctx tokenInMin tokenOutDenom swapFee priceLimit poolId
    tokenIn tokenOut updatedTick updatedLiquidity updatedSqrtPrice :
  CalcOutAmtGivenIn fuel ctx tokenInMin tokenOutDenom swapFee priceLimit poolId
    = Ok (tokenIn, tokenOut, updatedTick, updatedLiquidity, updatedSqrtPrice) ->
  exists p sqrtPriceLimit swapState,
    getPoolById ctx poolId = Ok p /\
    loopOutGivenIn fuel ctx p poolId (String.eqb (Denom tokenInMin) (Token0 p))
      sqrtPriceLimit (initOutGivenIn p (amountAfterFee tokenInMin swapFee))
      = Ok swapState /\
    let taken := Sub (amountAfterFee tokenInMin swapFee)
                     (amountSpecifiedRemaining swapState) in
    (0 <= taken -> 0 < taken mod precisionReuse < fivePrecision ->
     ToDec (Amount tokenIn) < taken).
Proof.
  intros H. apply CalcOutAmtGivenIn_realized_amounts in H.
  destruct H as (p & lim & st & Hp & Hloop & Hin & _).
  exists p, lim, st. split; [exact Hp|]. split; [exact Hloop|].
  intros taken Hpos Hfrac. unfold ToDec. rewrite Hin.
  apply RoundInt_rounds_down; assumption.
Qed.

(** ** Stopping tolerances *)

Section Tolerances.
Context `{C : Collaborators}.

Lemma loopInGivenOut_unfold (fuel : nat) ctx p poolId zeroForOne swapFee liq swapState :
  loopInGivenOut (S fuel) ctx p poolId zeroForOne swapFee liq swapState =
  if condInGivenOut swapState
  then bind (stepInGivenOut ctx p poolId zeroForOne swapFee liq swapState)
            (loopInGivenOut fuel ctx p poolId zeroForOne swapFee liq)
  else Ok swapState.
Proof. reflexivity. Qed.


(** C5, as amended.  The two loops stop at different tolerances.  The
    exact-in loop runs a pass exactly while the remaining amount exceeds
    [10^-7] and the working square-root price differs from the limit; the
    exact-out loop runs a pass exactly while the remaining amount exceeds
    [10^-6]. *)
Theorem loop_tolerances :
  (forall sqrtPriceLimit swapState,
      condOutGivenIn sqrtPriceLimit swapState =
      (100000000000 <? amountSpecifiedRemaining swapState) &&
      negb (sqrtPrice swapState =? sqrtPriceLimit)) /\
  (forall swapState,
      condInGivenOut swapState =
      (1000000000000 <? amountSpecifiedRemaining swapState)) /\
  (forall fuel ctx p poolId zeroForOne sqrtPriceLimit swapState,
      loopOutGivenIn (S fuel) ctx p poolId zeroForOne sqrtPriceLimit swapState =
      if condOutGivenIn sqrtPriceLimit swapState
      then bind (stepOutGivenIn ctx p poolId zeroForOne sqrtPriceLimit swapState)
                (loopOutGivenIn fuel ctx p poolId zeroForOne sqrtPriceLimit)
      else Ok swapState) /\
  (forall fuel ctx p poolId zeroForOne swapFee liq swapState,
      loopInGivenOut (S fuel) ctx p poolId zeroForOne swapFee liq swapState =
      if condInGivenOut swapState
      then bind (stepInGivenOut ctx p poolId zeroForOne swapFee liq swapState)
                (loopInGivenOut fuel ctx p poolId zeroForOne swapFee liq)
      else Ok swapState).
Proof.
  repeat split; intros; reflexivity.
Qed.

End Tolerances.

(** C5, as stated, fails: were both guards the comparison with [10^-7],
    the two would agree on a remaining amount of [5 * 10^-7]; the exact-out
    guard is false there. *)
Lemma loop_tolerances_differ :
  ~ ((forall sqrtPriceLimit swapState,
         condOutGivenIn sqrtPriceLimit swapState =
         (100000000000 <? amountSpecifiedRemaining swapState) &&
         negb (sqrtPrice swapState =? sqrtPriceLimit)) /\
     (forall swapState,
         condInGivenOut swapState =
         (100000000000 <? amountSpecifiedRemaining swapState))).
Proof.
  intros [_ H].
  specialize (H (mkSwapState 500000000000 0 0 0 None)).
  discriminate H.
Qed.

(** ** The exact-out orchestrator *)

Section ExactOutFacts.
Context `{C : Collaborators}.

(** No pass of the exact-out loop writes the working square-root price. *)
Lemma stepInGivenOut_sqrtPrice ctx p poolId zeroForOne swapFee liq swapState swapState' :
  stepInGivenOut ctx p poolId zeroForOne swapFee liq swapState = Ok swapState' ->
  sqrtPrice swapState' = sqrtPrice swapState.
Proof.
  unfold stepInGivenOut. intros H.
  bind_inv H.
  destruct (NextInitializedTick _ _ _ _) as [nextTick ok].
  destruct ok; simpl in H; [|discriminate].
  bind_inv H.
  destruct (ComputeSwapStep _ _ _ _ _) as [[sqrtPrice' amountIn] amountOut].
  bind_inv H.
  destruct (Equal (sqrtPrice swapState) sqrtPrice').
  - bind_inv H. bind_inv H. simpl in H.
    destruct (LTE _ _ || _); [discriminate|].
    inversion H; reflexivity.
  - inversion H; reflexivity.
Qed.

(** A loop that returns a state has made a run to it. *)
Lemma loopInGivenOut_runs ctx p poolId zeroForOne swapFee liq :
  forall fuel swapState swapState',
    loopInGivenOut fuel ctx p poolId zeroForOne swapFee liq swapState = Ok swapState' ->
    runsInGivenOut ctx p poolId zeroForOne swapFee liq swapState swapState'.
Proof.
  induction fuel as [|fuel IH]; intros st st' H; simpl in H.
  - destruct (condInGivenOut st) eqn:Hc; [discriminate|].
    inversion H; subst. apply InGivenOut_exit. exact Hc.
  - destruct (condInGivenOut st) eqn:Hc.
    + bind_inv H. eapply InGivenOut_pass; eauto.
    + inversion H; subst. apply InGivenOut_exit. exact Hc.
Qed.

(** A run is what the loop does with enough fuel. *)
Lemma runsInGivenOut_loop ctx p poolId zeroForOne swapFee liq swapState swapState' :
  runsInGivenOut ctx p poolId zeroForOne swapFee liq swapState swapState' ->
  exists fuel,
    loopInGivenOut fuel ctx p poolId zeroForOne swapFee liq swapState = Ok swapState'.
Proof.
  induction 1 as [s Hc | s s1 s' Hc Hstep _ [fuel IH]].
  - exists O. simpl. rewrite Hc. reflexivity.
  - exists (S fuel). simpl. rewrite Hc, Hstep. exact IH.
Qed.

Lemma runsInGivenOut_sqrtPrice ctx p poolId zeroForOne swapFee liq swapState swapState' :
  runsInGivenOut ctx p poolId zeroForOne swapFee liq swapState swapState' ->
  sqrtPrice swapState' = sqrtPrice swapState.
Proof.
  induction 1 as [s Hc | s s1 s' Hc Hstep _ IH]; [reflexivity|].
  apply stepInGivenOut_sqrtPrice in Hstep. congruence.
Qed.

Lemma loopInGivenOut_sqrtPrice fuel ctx p poolId zeroForOne swapFee liq
      swapState swapState' :
  loopInGivenOut fuel ctx p poolId zeroForOne swapFee liq swapState = Ok swapState' ->
  sqrtPrice swapState' = sqrtPrice swapState.
Proof.
  intros H. apply loopInGivenOut_runs in H.
  eapply runsInGivenOut_sqrtPrice; eassumption.
Qed.

(** C9.  The square-root price that a successful [CalcInAmtGivenOut]
    returns is the current square-root price of the pool it looked up at
    entry, for every fuel, that is, however many passes the loop made. *)
Theorem CalcInAmtGivenOut_sqrtPrice_unchanged
    fuel ctx tokenOut tokenInDenom swapFee minPrice maxPrice poolId
    tokenIn newLiquidity newTick newSqrtPrice :
  CalcInAmtGivenOut fuel ctx tokenOut tokenInDenom swapFee minPrice maxPrice poolId
    = Ok (tokenIn, newLiquidity, newTick, newSqrtPrice) ->
  exists p, getPoolById ctx poolId = Ok p /\ newSqrtPrice = CurrentSqrtPrice p.
Proof.
  unfold CalcInAmtGivenOut. intros H.
  bind_inv H. rename a into p. exists p. split; [assumption|].
  bind_inv H. destruct a as [lo hi].
  bind_inv H. bind_inv H.
  apply loopInGivenOut_sqrtPrice in Ha1.
  inversion H; subst. exact Ha1.
Qed.

(** The exact-out loop starts without a liquidity and a pass that
    succeeds leaves it so. *)
Lemma initInGivenOut_liquidity p tokenOutAmt :
  liquidity (initInGivenOut p tokenOutAmt) = None.
Proof. reflexivity. Qed.

Lemma stepInGivenOut_liquidity ctx p poolId zeroForOne swapFee liq swapState swapState' :
  liquidity swapState = None ->
  stepInGivenOut ctx p poolId zeroForOne swapFee liq swapState = Ok swapState' ->
  liquidity swapState' = None.
Proof.
  unfold stepInGivenOut. intros Hnil H.
  bind_inv H.
  destruct (NextInitializedTick _ _ _ _) as [nextTick ok].
  destruct ok; simpl in H; [|discriminate].
  bind_inv H.
  destruct (ComputeSwapStep _ _ _ _ _) as [[sqrtPrice' amountIn] amountOut].
  bind_inv H.
  destruct (Equal (sqrtPrice swapState) sqrtPrice').
  - bind_inv H. rewrite Hnil in H. discriminate.
  - inversion H; subst; simpl. exact Hnil.
Qed.

(** Hence every state of a run of [CalcInAmtGivenOut] has a nil
    liquidity, the state it returns included. *)
Lemma runsInGivenOut_liquidity ctx p poolId zeroForOne swapFee liq swapState swapState' :
  runsInGivenOut ctx p poolId zeroForOne swapFee liq swapState swapState' ->
  liquidity swapState = None ->
  liquidity swapState' = None.
Proof.
  induction 1 as [s Hc | s s1 s' Hc Hstep _ IH]; intros Hnil; [exact Hnil|].
  apply IH. eapply stepInGivenOut_liquidity; eassumption.
Qed.

(** X12.  Every successful [CalcInAmtGivenOut] returns a nil liquidity:
    the initial state has none and no pass that succeeds sets one. *)
Lemma CalcInAmtGivenOut_returns_nil_liquidity
    fuel ctx tokenOut tokenInDenom swapFee minPrice maxPrice poolId
    tokenIn newLiquidity newTick newSqrtPrice :
  CalcInAmtGivenOut fuel ctx tokenOut tokenInDenom swapFee minPrice maxPrice poolId
    = Ok (tokenIn, newLiquidity, newTick, newSqrtPrice) ->
  newLiquidity = None.
Proof.
  unfold CalcInAmtGivenOut. intros H.
  bind_inv H. bind_inv H. destruct a0 as [lo hi].
  bind_inv H. bind_inv H.
  apply loopInGivenOut_runs in Ha1.
  apply runsInGivenOut_liquidity in Ha1; [|reflexivity].
  inversion H; subst. exact Ha1.
Qed.

(** A pass that reaches the crossing branch, the tick read having
    succeeded, calls [Add] on the nil liquidity. *)
Lemma stepInGivenOut_cross_nil ctx p poolId zeroForOne swapFee liq swapState
      tick64 nextTick nextSqrtPrice sqrtPrice' amountIn amountOut liquidityDelta :
  liquidity swapState = None ->
  Int64 (tick swapState) = Ok tick64 ->
  NextInitializedTick ctx poolId tick64 zeroForOne = (nextTick, true) ->
  TickToSqrtPrice nextTick = Ok nextSqrtPrice ->
  ComputeSwapStep (sqrtPrice swapState) nextSqrtPrice liq
                  (amountSpecifiedRemaining swapState) zeroForOne
    = (sqrtPrice', amountIn, amountOut) ->
  Sub OneDec swapFee <> 0 ->
  Equal (sqrtPrice swapState) sqrtPrice' = true ->
  CrossTick ctx (Id p) nextTick = Ok liquidityDelta ->
  stepInGivenOut ctx p poolId zeroForOne swapFee liq swapState = Panic NilDereference.
Proof.
  unfold stepInGivenOut. intros Hnil Ht Hn Hs Hc Hfee Heq Hx.
  rewrite Ht; simpl. rewrite Hn; simpl. rewrite Hs; simpl. rewrite Hc.
  unfold Quo. apply Z.eqb_neq in Hfee. rewrite Hfee. simpl.
  rewrite Heq, Hx. simpl. rewrite Hnil. reflexivity.
Qed.

(** The band that [SwapInAmtGivenOut] hands on is always from zero to
    9999999999: a failure of [CalcInAmtGivenOut] on that band is the failure
    of the call, whatever band the caller gave. *)
Lemma SwapInAmtGivenOut_fixed_band_error
    fuel tokenOut tokenInDenom swapFee minPrice maxPrice poolId ctx e :
  CalcInAmtGivenOut fuel ctx tokenOut tokenInDenom swapFee
                    0 9999999999000000000000000000 poolId = Err e ->
  SwapInAmtGivenOut fuel tokenOut tokenInDenom swapFee minPrice maxPrice poolId ctx
    = (Err e, ctx).
Proof.
  unfold SwapInAmtGivenOut, bindM, reads.
  change ZeroDec with 0. change (NewDec 9999999999) with 9999999999000000000000000000.
  intros ->. reflexivity.
Qed.

(** And the coin of a successful call is the one computed on that band. *)
Lemma SwapInAmtGivenOut_fixed_band_coin
    fuel tokenOut tokenInDenom swapFee minPrice maxPrice poolId ctx tokenIn ctx' :
  SwapInAmtGivenOut fuel tokenOut tokenInDenom swapFee minPrice maxPrice poolId ctx
    = (Ok tokenIn, ctx') ->
  exists newLiquidity newTick newSqrtPrice,
    CalcInAmtGivenOut fuel ctx tokenOut tokenInDenom swapFee
                      0 9999999999000000000000000000 poolId
      = Ok (tokenIn, newLiquidity, newTick, newSqrtPrice).
Proof.
  unfold SwapInAmtGivenOut, bindM, reads.
  change ZeroDec with 0. change (NewDec 9999999999) with 9999999999000000000000000000.
  intros H.
  destruct (CalcInAmtGivenOut _ _ _ _ _ _ _ _) as [calc| | |]; try discriminate.
  destruct calc as [[[coin l] t] sp].
  destruct (getPoolById ctx poolId) as [pool| | |]; try discriminate.
  destruct (ApplySwap _ _ _ _ _ _) as [pool'| | |]; try discriminate.
  unfold writes in H.
  destruct (setPool ctx pool'); try discriminate.
  inversion H; subst. exists l, t, sp. reflexivity.
Qed.

(** C10.  [SwapInAmtGivenOut] does not read [minPrice] and [maxPrice]:
    two calls that differ in them alone return the same coin or the same
    failure and leave the same store, because it is the band from zero to
    9999999999 that reaches [CalcInAmtGivenOut]: the coin returned is the
    one computed on that band, and a failure on that band is the failure
    returned. *)
Theorem SwapInAmtGivenOut_ignores_price_band
    fuel tokenOut tokenInDenom swapFee poolId ctx
    minPrice maxPrice minPrice' maxPrice' :
  SwapInAmtGivenOut fuel tokenOut tokenInDenom swapFee minPrice maxPrice poolId ctx =
  SwapInAmtGivenOut fuel tokenOut tokenInDenom swapFee minPrice' maxPrice' poolId ctx /\
  (forall tokenIn ctx',
      SwapInAmtGivenOut fuel tokenOut tokenInDenom swapFee minPrice maxPrice poolId ctx
        = (Ok tokenIn, ctx') ->
      exists newLiquidity newTick newSqrtPrice,
        CalcInAmtGivenOut fuel ctx tokenOut tokenInDenom swapFee
                          0 9999999999000000000000000000 poolId
          = Ok (tokenIn, newLiquidity, newTick, newSqrtPrice)) /\
  (forall e,
      CalcInAmtGivenOut fuel ctx tokenOut tokenInDenom swapFee
                        0 9999999999000000000000000000 poolId = Err e ->
      SwapInAmtGivenOut fuel tokenOut tokenInDenom swapFee minPrice maxPrice poolId ctx
        = (Err e, ctx)).
Proof.
  split; [reflexivity|]. split.
  - intros tokenIn ctx'. apply SwapInAmtGivenOut_fixed_band_coin.
  - intros e. apply SwapInAmtGivenOut_fixed_band_error.
Qed.

End ExactOutFacts.

(** ** The store across a swap *)

Section StoreFacts.
Context `{C : Collaborators}.

Lemma writes_inv (f : Ctx -> result Ctx) (ctx ctx' : Ctx) (r : result unit) :
  writes f ctx = (r, ctx') ->
  (f ctx = Ok ctx' /\ r = Ok tt) \/ (ctx' = ctx /\ isOk r = false).
Proof.
  unfold writes. destruct (f ctx); intros H; inversion H; subst; auto.
Qed.


(** A failure of [SwapOutAmtGivenIn] other than the comparison of the
    calculated with the provided input happens before anything is written. *)
Lemma SwapOutAmtGivenIn_error_store fuel tokenIn tokenOutDenom swapFee priceLimit poolId
      ctx r ctx' :
  SwapOutAmtGivenIn fuel tokenIn tokenOutDenom swapFee priceLimit poolId ctx = (r, ctx') ->
  isOk r = false ->
  r <> Err ErrCalculatedTokenInTooLarge ->
  ctx' = ctx.
Proof.
  unfold SwapOutAmtGivenIn, bindM, reads. intros H Hr Hne.
  destruct (CalcOutAmtGivenIn _ _ _ _ _ _ _) as [calc| | |];
    try (inversion H; reflexivity).
  destruct calc as [[[[calcTokenIn calcTokenOut] newTick] newLiquidity] newSqrtPrice].
  destruct (getPoolById ctx poolId) as [pool| | |]; try (inversion H; reflexivity).
  destruct (ApplySwap _ _ _ _ _ _) as [pool'| | |]; try (inversion H; reflexivity).
  destruct (writes _ ctx) as [w ctx1] eqn:Hw.
  apply writes_inv in Hw. destruct Hw as [[Hset ->] | [-> Hfail]].
  - destruct (Amount calcTokenIn >? Amount tokenIn); inversion H; subst.
    + congruence.
    + discriminate.
  - destruct w; try discriminate; inversion H; reflexivity.
Qed.


(** On any market, once the inner swap has succeeded, an output below the
    caller's minimum is refused with the store the inner swap has written. *)
Lemma SwapExactAmountIn_refused_after_commit
    fuel sender poolI tokenIn tokenOutDenom tokenOutMinAmount swapFee ctx
    pool tokenOutCoin ctx1 :
  String.eqb (Denom tokenIn) tokenOutDenom = false ->
  getPoolById ctx (Id poolI) = Ok pool ->
  SwapOutAmtGivenIn fuel tokenIn tokenOutDenom swapFee (limitFor tokenIn pool) (Id pool) ctx
    = (Ok tokenOutCoin, ctx1) ->
  0 < Amount tokenOutCoin < tokenOutMinAmount ->
  SwapExactAmountIn fuel sender poolI tokenIn tokenOutDenom tokenOutMinAmount swapFee ctx
    = (Err (ErrLimitMinAmount tokenOutDenom), ctx1).
Proof.
  intros Hne Hpool Hswap [Hpos Hmin].
  unfold SwapExactAmountIn. rewrite Hne.
  unfold bindM at 1. unfold reads at 1. rewrite Hpool.
  unfold bindM at 1.
  unfold limitFor in Hswap.
  destruct (String.eqb (Denom tokenIn) (Token0 pool)); rewrite Hswap;
    apply Z.ltb_lt in Hpos; apply Z.ltb_lt in Hmin; rewrite Hpos, Hmin; reflexivity.
Qed.

(** C6.  [SwapExactAmountOut] computes nothing: on every request it
    returns the zero value [sdk.Int{}] and no error, and leaves the store
    untouched. *)
Theorem SwapExactAmountOut_returns_zero_value
    sender poolId tokenInDenom tokenInMaxAmount tokenOut swapFee ctx :
  SwapExactAmountOut sender poolId tokenInDenom tokenInMaxAmount tokenOut swapFee ctx
    = (Ok None, ctx).
Proof. reflexivity. Qed.

End StoreFacts.

(** ** Fuel *)

Section Fuel.
Context `{C : Collaborators}.

(** A loop that has finished with some fuel finishes the same way with
    more. *)
Lemma loopOutGivenIn_more_fuel ctx p poolId zeroForOne sqrtPriceLimit :
  forall fuel swapState r,
    loopOutGivenIn fuel ctx p poolId zeroForOne sqrtPriceLimit swapState = r ->
    r <> OutOfFuel ->
    loopOutGivenIn (S fuel) ctx p poolId zeroForOne sqrtPriceLimit swapState = r.
Proof.
  induction fuel as [|fuel IH]; intros st r H Hr.
  - simpl in *. destruct (condOutGivenIn sqrtPriceLimit st); congruence.
  - rewrite loopOutGivenIn_unfold. rewrite loopOutGivenIn_unfold in H.
    destruct (condOutGivenIn sqrtPriceLimit st); [|exact H].
    destruct (stepOutGivenIn ctx p poolId zeroForOne sqrtPriceLimit st) as [st'| | |];
      try exact H.
    cbn [bind] in *. apply IH; assumption.
Qed.

Lemma loopInGivenOut_more_fuel ctx p poolId zeroForOne swapFee liq :
  forall fuel swapState r,
    loopInGivenOut fuel ctx p poolId zeroForOne swapFee liq swapState = r ->
    r <> OutOfFuel ->
    loopInGivenOut (S fuel) ctx p poolId zeroForOne swapFee liq swapState = r.
Proof.
  induction fuel as [|fuel IH]; intros st r H Hr.
  - simpl in *. destruct (condInGivenOut st); congruence.
  - rewrite loopInGivenOut_unfold. rewrite loopInGivenOut_unfold in H.
    destruct (condInGivenOut st); [|exact H].
    destruct (stepInGivenOut ctx p poolId zeroForOne swapFee liq st) as [st'| | |];
      try exact H.
    cbn [bind] in *. apply IH; assumption.
Qed.

Lemma loopOutGivenIn_runs ctx p poolId zeroForOne sqrtPriceLimit :
  forall fuel swapState swapState',
    loopOutGivenIn fuel ctx p poolId zeroForOne sqrtPriceLimit swapState = Ok swapState' ->
    runsOutGivenIn ctx p poolId zeroForOne sqrtPriceLimit swapState swapState'.
Proof.
  induction fuel as [|fuel IH]; intros st st' H; simpl in H.
  - destruct (condOutGivenIn sqrtPriceLimit st) eqn:Hc; [discriminate|].
    inversion H; subst. apply OutGivenIn_exit. exact Hc.
  - destruct (condOutGivenIn sqrtPriceLimit st) eqn:Hc.
    + bind_inv H. eapply OutGivenIn_pass; eauto.
    + inversion H; subst. apply OutGivenIn_exit. exact Hc.
Qed.

Lemma runsOutGivenIn_loop ctx p poolId zeroForOne sqrtPriceLimit swapState swapState' :
  runsOutGivenIn ctx p poolId zeroForOne sqrtPriceLimit swapState swapState' ->
  exists fuel,
    loopOutGivenIn fuel ctx p poolId zeroForOne sqrtPriceLimit swapState = Ok swapState'.
Proof.
  induction 1 as [s Hc | s s1 s' Hc Hstep _ [fuel IH]].
  - exists O. simpl. rewrite Hc. reflexivity.
  - exists (S fuel). simpl. rewrite Hc, Hstep. exact IH.
Qed.

(** The exact-in loop never loses its liquidity: every state of a run
    from the initial state has one. *)
Lemma stepOutGivenIn_liquidity ctx p poolId zeroForOne sqrtPriceLimit swapState swapState' :
  stepOutGivenIn ctx p poolId zeroForOne sqrtPriceLimit swapState = Ok swapState' ->
  liquidity swapState <> None /\ liquidity swapState' <> None.
Proof.
  unfold stepOutGivenIn. intros H.
  bind_inv H.
  destruct (NextInitializedTick _ _ _ _) as [nextTick ok].
  destruct ok; simpl in H; [|discriminate].
  bind_inv H.
  destruct (liquidity swapState) as [liq|] eqn:Hliq; simpl in H; [|discriminate].
  split; [discriminate|].
  destruct (ComputeSwapStep _ _ _ _ _) as [[sqrtPrice' amountIn] amountOut].
  destruct (Equal a0 sqrtPrice').
  - bind_inv H. inversion H; subst; simpl. discriminate.
  - destruct (negb (Equal (sqrtPrice swapState) sqrtPrice'));
      inversion H; subst; simpl; discriminate.
Qed.

Lemma runsOutGivenIn_liquidity ctx p poolId zeroForOne sqrtPriceLimit swapState swapState' :
  runsOutGivenIn ctx p poolId zeroForOne sqrtPriceLimit swapState swapState' ->
  liquidity swapState <> None ->
  liquidity swapState' <> None.
Proof.
  induction 1 as [s Hc | s s1 s' Hc Hstep _ IH]; intros Hsome; [exact Hsome|].
  apply IH. eapply stepOutGivenIn_liquidity; eassumption.
Qed.

End Fuel.

(** ** Runs on the example market *)

Import Example.



(** C9 at work: 300 usdc bought from pool 1 in one pass of the loop; the
    square-root price returned is still 5. *)
Lemma CalcInAmtGivenOut_sqrtPrice_unchanged_witness :
  exists p, getPoolById world 1%N = Ok p /\ NewDec 5 = CurrentSqrtPrice p.
Proof.
  apply (CalcInAmtGivenOut_sqrtPrice_unchanged
           10 world (usdc 300) "eth" 0 (NewDec 16) (NewDec 36) 1%N
           (eth 12) None 5 (NewDec 5)).
  vm_compute; reflexivity.
Defined.



(** C3 on a run: with a price limit of 26.01 pool 1 takes 130.3 of the
    500 usdc offered; the realized input returned is 130, the nearest
    integer, where rounding up gives 131.  The realized output is 5, the
    integer part of the accumulated amount. *)
Theorem CalcOutAmtGivenIn_rounds_to_nearest :
  CalcOutAmtGivenIn 10 world (usdc 500) "eth" 0 limit26 1
    = Ok (usdc 130, eth 5, 5, Some (NewDec 1303), 5100000000000000000) /\
  exists swapState,
    loopOutGivenIn 10 world pool1 1 false 5100000000000000000
      (initOutGivenIn pool1 (amountAfterFee (usdc 500) 0)) = Ok swapState /\
    Sub (amountAfterFee (usdc 500) 0) (amountSpecifiedRemaining swapState)
      = 130300000000000000000 /\
    RoundInt 130300000000000000000 = 130 /\
    CeilInt 130300000000000000000 = 131 /\
    amountCalculated swapState = 5109803921568627451 /\
    TruncateInt (amountCalculated swapState) = 5.
Proof.
  split; [vm_compute; reflexivity|].
  eexists. split; [vm_compute; reflexivity|].
  vm_compute. repeat split.
Qed.

(** C8 on a run: 1 usdc asked of pool 1 over a band so narrow that the
    first pass cannot move the price; the pass enters the crossing branch
    and calls [Add] on a liquidity that was never set. *)
Theorem CalcInAmtGivenOut_nil_liquidity :
  forall fuel,
    CalcInAmtGivenOut (S fuel) world (usdc 1) "eth" 0 narrowMin narrowMax 1
      = Panic NilDereference.
Proof.
  intros fuel. vm_compute. reflexivity.
Qed.

(** * Further properties *)

Import Scenes.

(** ** Coins and the fee *)

Lemma NewCoin_Ok_valid (denom : string) (amount : Z) (c : Coin) :
  NewCoin denom amount = Ok c ->
  c = mkCoin denom amount /\ ValidateDenom denom = true /\ 0 <= amount.
Proof.
  unfold NewCoin.
  destruct (ValidateDenom denom) eqn:Hv; simpl; [|discriminate].
  destruct (0 <=? amount) eqn:Ha; [|discriminate].
  intros H. inversion H. apply Z.leb_le in Ha. auto.
Qed.

(** A decimal that is a whole number of units is its own rounding. *)
Lemma chopPrecisionAndRound_exact (k : Z) :
  chopPrecisionAndRound (k * precisionReuse) = k.
Proof.
  unfold chopPrecisionAndRound.
  assert (Hp : 0 < precisionReuse) by (unfold precisionReuse; lia).
  rewrite Z.abs_mul, (Z.abs_eq precisionReuse) by lia.
  rewrite Z.quot_mul, Z.rem_mul by lia. simpl.
  destruct (k * precisionReuse <? 0) eqn:Hs.
  - apply Z.ltb_lt in Hs. assert (k < 0) by nia. lia.
  - apply Z.ltb_ge in Hs. assert (0 <= k) by nia. lia.
Qed.

(** X3.  The fee is taken off without rounding: the after-fee input of line
    98 is the input amount times one minus the fee, to the last of the 18
    digits.  With a fee between zero and one it lies between zero and the
    input, and a zero fee leaves the input whole. *)
Theorem amountAfterFee_exact (tokenInMin : Coin) (swapFee : Dec) :
  amountAfterFee tokenInMin swapFee = Amount tokenInMin * (OneDec - swapFee) /\
  (0 <= Amount tokenInMin -> 0 <= swapFee <= OneDec ->
   0 <= amountAfterFee tokenInMin swapFee <= ToDec (Amount tokenInMin)) /\
  (swapFee = 0 -> amountAfterFee tokenInMin swapFee = ToDec (Amount tokenInMin)).
Proof.
  assert (Heq : amountAfterFee tokenInMin swapFee
                = Amount tokenInMin * (OneDec - swapFee)).
  { unfold amountAfterFee, Mul, ToDec, Sub.
    replace (Amount tokenInMin * precisionReuse * (OneDec - swapFee))
      with (Amount tokenInMin * (OneDec - swapFee) * precisionReuse) by ring.
    apply chopPrecisionAndRound_exact. }
  split; [exact Heq|]. split.
  - intros Ha Hf. rewrite Heq. unfold ToDec, OneDec in *. nia.
  - intros ->. rewrite Heq. unfold ToDec, OneDec, precisionReuse. lia.
Qed.

(** ** What a successful [CalcOutAmtGivenIn] tells *)

Section ExactInSuccess.
Context `{C : Collaborators}.

Lemma CalcOutAmtGivenIn_coins_valid
    fuel ctx tokenInMin tokenOutDenom swapFee priceLimit poolId
    tokenIn tokenOut updatedTick updatedLiquidity updatedSqrtPrice :
  CalcOutAmtGivenIn fuel ctx tokenInMin tokenOutDenom swapFee priceLimit poolId
    = Ok (tokenIn, tokenOut, updatedTick, updatedLiquidity, updatedSqrtPrice) ->
  (Denom tokenIn = Denom tokenInMin /\ ValidateDenom (Denom tokenInMin) = true /\
   0 <= Amount tokenIn) /\
  (Denom tokenOut = tokenOutDenom /\ ValidateDenom tokenOutDenom = true /\
   0 <= Amount tokenOut).
Proof.
  unfold CalcOutAmtGivenIn. intros H.
  bind_inv H. bind_inv H. bind_inv H. bind_inv H. destruct a2 as [cin cout].
  unfold coinsOutGivenIn in Ha2. bind_inv Ha2. bind_inv Ha2.
  apply NewCoin_Ok_valid in Ha3, Ha4.
  destruct Ha3 as (-> & Vin & Pin). destruct Ha4 as (-> & Vout & Pout).
  inversion Ha2; inversion H; subst; simpl. auto.
Qed.


(** X1.  A successful [CalcOutAmtGivenIn] was asked to trade one of the
    pool's two denominations for the other, the two being different, with a
    price limit whose square root lies between the minimum ratio and the
    current square-root price when the pool's first asset comes in, and
    between the current square-root price and the maximum ratio when the
    second does (lines 105-127). *)
Theorem CalcOutAmtGivenIn_success_request
    fuel ctx tokenInMin tokenOutDenom swapFee priceLimit poolId
    tokenIn tokenOut updatedTick updatedLiquidity updatedSqrtPrice :
  CalcOutAmtGivenIn fuel ctx tokenInMin tokenOutDenom swapFee priceLimit poolId
    = Ok (tokenIn, tokenOut, updatedTick, updatedLiquidity, updatedSqrtPrice) ->
  exists p sqrtPriceLimit,
    getPoolById ctx poolId = Ok p /\
    ApproxSqrt priceLimit = Ok sqrtPriceLimit /\
    Token0 p <> Token1 p /\
    ((Denom tokenInMin = Token0 p /\ tokenOutDenom = Token1 p /\
      MinSqrtRatio <= sqrtPriceLimit <= CurrentSqrtPrice p) \/
     (Denom tokenInMin = Token1 p /\ tokenOutDenom = Token0 p /\
      CurrentSqrtPrice p <= sqrtPriceLimit <= MaxSqrtRatio)).
Proof.
  intros H. apply CalcOutAmtGivenIn_inv in H.
  destruct H as (p & lim & st & Hp & Hcheck & _).
  exists p, lim. split; [exact Hp|].
  apply checkOutGivenIn_Ok_iff in Hcheck.
  destruct Hcheck as (Hsqrt & Hinv & Hin & Hout & Hne).
  split; [exact Hsqrt|].
  unfold invalidPriceLimit, GT, LT in Hinv.
  destruct (String.eqb (Denom tokenInMin) (Token0 p)) eqn:Hz.
  - apply String.eqb_eq in Hz. simpl in Hinv.
    rewrite orb_false_r in Hinv. apply orb_false_iff in Hinv.
    destruct Hinv as [Hgt Hlt]. apply Z.ltb_ge in Hgt, Hlt.
    assert (Ho : tokenOutDenom = Token1 p)
      by (destruct Hout as [Ho | Ho]; [congruence | exact Ho]).
    split; [congruence|]. left. auto.
  - apply String.eqb_neq in Hz. simpl in Hinv.
    apply orb_false_iff in Hinv.
    destruct Hinv as [Hlt Hgt]. apply Z.ltb_ge in Hgt, Hlt.
    assert (Hi : Denom tokenInMin = Token1 p)
      by (destruct Hin as [Hi | Hi]; [congruence | exact Hi]).
    assert (Ho : tokenOutDenom = Token0 p)
      by (destruct Hout as [Ho | Ho]; [exact Ho | congruence]).
    split; [congruence|]. right. auto.
Qed.


(** X5.  When there is something to swap, the price is not yet at the
    limit and the tick store has no initialized tick in the direction of the
    swap, [CalcOutAmtGivenIn] fails in its first pass with "there are no
    more ticks initialized to fill the swap". *)
Theorem CalcOutAmtGivenIn_no_initialized_tick
    fuel ctx tokenInMin tokenOutDenom swapFee priceLimit poolId p sqrtPriceLimit
    tick64 nextTick :
  getPoolById ctx poolId = Ok p ->
  checkOutGivenIn p tokenInMin tokenOutDenom priceLimit = Ok sqrtPriceLimit ->
  epsilonOutGivenIn < amountAfterFee tokenInMin swapFee ->
  CurrentSqrtPrice p <> sqrtPriceLimit ->
  Int64 (PriceToTick (Power2 (CurrentSqrtPrice p))) = Ok tick64 ->
  NextInitializedTick ctx poolId tick64
    (String.eqb (Denom tokenInMin) (Token0 p)) = (nextTick, false) ->
  CalcOutAmtGivenIn (S fuel) ctx tokenInMin tokenOutDenom swapFee priceLimit poolId
    = Err ErrNoMoreTicks.
Proof.
  intros Hpool Hcheck Hamt Hlim Htick Hnext.
  unfold CalcOutAmtGivenIn. rewrite Hpool. simpl. rewrite Hcheck. simpl.
  assert (Hcond : condOutGivenIn sqrtPriceLimit
                    (initOutGivenIn p (amountAfterFee tokenInMin swapFee)) = true).
  { unfold condOutGivenIn, initOutGivenIn, GT, Equal; simpl.
    apply andb_true_iff. split; [apply Z.ltb_lt; exact Hamt|].
    apply negb_true_iff, Z.eqb_neq. exact Hlim. }
  rewrite Hcond.
  unfold stepOutGivenIn, initOutGivenIn at 1; simpl.
  rewrite Htick. simpl. rewrite Hnext. reflexivity.
Qed.

(** X6.  A pass of the exact-in loop that ends short of the next
    initialized tick's square-root price keeps the working liquidity, and
    sets the working tick to the tick of the new price when the price has
    moved and leaves it otherwise (lines 209-213). *)
Theorem CalcOutAmtGivenIn_within_tick
    ctx p poolId zeroForOne sqrtPriceLimit swapState swapState'
    tick64 nextTick ok nextSqrtPrice :
  stepOutGivenIn ctx p poolId zeroForOne sqrtPriceLimit swapState = Ok swapState' ->
  Int64 (tick swapState) = Ok tick64 ->
  NextInitializedTick ctx poolId tick64 zeroForOne = (nextTick, ok) ->
  TickToSqrtPrice nextTick = Ok nextSqrtPrice ->
  sqrtPrice swapState' <> nextSqrtPrice ->
  liquidity swapState' = liquidity swapState /\
  tick swapState' =
    (if sqrtPrice swapState =? sqrtPrice swapState' then tick swapState
     else PriceToTick (Power2 (sqrtPrice swapState'))).
Proof.
  unfold stepOutGivenIn. intros Hstep Htick Hnext Hsqrt Hne.
  rewrite Htick in Hstep. simpl in Hstep. rewrite Hnext in Hstep.
  destruct ok; simpl in Hstep; [|discriminate].
  rewrite Hsqrt in Hstep. simpl in Hstep.
  destruct (liquidity swapState) as [liq|] eqn:Hliq; simpl in Hstep; [|discriminate].
  destruct (ComputeSwapStep _ _ _ _ _) as [[sqrtPrice' amountIn] amountOut].
  destruct (Equal nextSqrtPrice sqrtPrice') eqn:Hcross.
  - exfalso. bind_inv Hstep. inversion Hstep; subst swapState'; simpl in Hne.
    unfold Equal in Hcross. apply Z.eqb_eq in Hcross. congruence.
  - unfold Equal in Hstep.
    destruct (sqrtPrice swapState =? sqrtPrice') eqn:Hmoved; simpl in Hstep;
      inversion Hstep; subst swapState'; simpl; rewrite Hmoved; auto.
Qed.

End ExactInSuccess.

(** ** What a successful swap tells *)

Section SwapSuccess.
Context `{C : Collaborators}.

Lemma SwapOutAmtGivenIn_Ok_inv fuel tokenIn tokenOutDenom swapFee priceLimit poolId
      ctx tokenOut ctx' :
  SwapOutAmtGivenIn fuel tokenIn tokenOutDenom swapFee priceLimit poolId ctx
    = (Ok tokenOut, ctx') ->
  exists calcTokenIn newTick newLiquidity newSqrtPrice pool pool',
    CalcOutAmtGivenIn fuel ctx tokenIn tokenOutDenom swapFee priceLimit poolId
      = Ok (calcTokenIn, tokenOut, newTick, newLiquidity, newSqrtPrice) /\
    getPoolById ctx poolId = Ok pool /\
    ApplySwap ctx pool poolId newLiquidity newTick newSqrtPrice = Ok pool' /\
    setPool ctx pool' = Ok ctx' /\
    Amount calcTokenIn <= Amount tokenIn.
Proof.
  unfold SwapOutAmtGivenIn, bindM, reads. intros H.
  destruct (CalcOutAmtGivenIn _ _ _ _ _ _ _) as [calc| | |]; try discriminate.
  destruct calc as [[[[calcTokenIn calcTokenOut] newTick] newLiquidity] newSqrtPrice].
  destruct (getPoolById ctx poolId) as [pool| | |]; try discriminate.
  destruct (ApplySwap _ _ _ _ _ _) as [pool'| | |] eqn:Happly; try discriminate.
  unfold writes in H.
  destruct (setPool ctx pool') as [ctx1| | |] eqn:Hset; try discriminate.
  destruct (Amount calcTokenIn >? Amount tokenIn) eqn:Hgt; [discriminate|].
  inversion H; subst.
  exists calcTokenIn, newTick, newLiquidity, newSqrtPrice, pool, pool'.
  repeat split; try assumption; try reflexivity.
  rewrite Z.gtb_ltb in Hgt. apply Z.ltb_ge in Hgt. exact Hgt.
Qed.

(** X7.  A successful [SwapOutAmtGivenIn] has used no more than it was
    given and has written exactly one pool: the coin it returns is the
    output computed by [CalcOutAmtGivenIn], non-negative and in the
    denomination asked for; the realized input of that computation does not
    exceed the input provided; and the store it leaves is the one [setPool]
    made from the pool that [ApplySwap] built with the computed liquidity,
    tick and square-root price. *)
Theorem SwapOutAmtGivenIn_success fuel tokenIn tokenOutDenom swapFee priceLimit poolId
    ctx tokenOut ctx' :
  SwapOutAmtGivenIn fuel tokenIn tokenOutDenom swapFee priceLimit poolId ctx
    = (Ok tokenOut, ctx') ->
  exists calcTokenIn newTick newLiquidity newSqrtPrice pool pool',
    CalcOutAmtGivenIn fuel ctx tokenIn tokenOutDenom swapFee priceLimit poolId
      = Ok (calcTokenIn, tokenOut, newTick, newLiquidity, newSqrtPrice) /\
    0 <= Amount calcTokenIn <= Amount tokenIn /\
    0 <= Amount tokenOut /\ Denom tokenOut = tokenOutDenom /\
    getPoolById ctx poolId = Ok pool /\
    ApplySwap ctx pool poolId newLiquidity newTick newSqrtPrice = Ok pool' /\
    setPool ctx pool' = Ok ctx'.
Proof.
  intros H. apply SwapOutAmtGivenIn_Ok_inv in H.
  destruct H as (calcIn & t & l & sp & pool & pool' & Hcalc & Hp & Ha & Hs & Hle).
  exists calcIn, t, l, sp, pool, pool'.
  pose proof (CalcOutAmtGivenIn_coins_valid _ _ _ _ _ _ _ _ _ _ _ _ Hcalc)
    as ((_ & _ & Pin) & (Dout & _ & Pout)).
  repeat split; assumption.
Qed.

Lemma SwapExactAmountIn_Ok_inv
    fuel sender poolI tokenIn tokenOutDenom tokenOutMinAmount swapFee ctx amount ctx' :
  SwapExactAmountIn fuel sender poolI tokenIn tokenOutDenom tokenOutMinAmount swapFee ctx
    = (Ok amount, ctx') ->
  Denom tokenIn <> tokenOutDenom /\
  0 < amount /\ tokenOutMinAmount <= amount /\
  exists pool tokenOutCoin ctx1 ctx2 ctx3,
    getPoolById ctx (Id poolI) = Ok pool /\
    SwapOutAmtGivenIn fuel tokenIn tokenOutDenom swapFee (limitFor tokenIn pool)
                      (Id pool) ctx = (Ok tokenOutCoin, ctx1) /\
    Amount tokenOutCoin = amount /\
    SendCoins ctx1 sender (Address pool) [tokenIn] = Ok ctx2 /\
    SendCoins ctx2 (Address pool) sender [tokenOutCoin] = Ok ctx3 /\
    ctx' = EmitSwapEvent ctx3 sender (Id pool) tokenIn tokenOutCoin.
Proof.
  unfold SwapExactAmountIn. intros H.
  destruct (String.eqb (Denom tokenIn) tokenOutDenom) eqn:Hne; [discriminate|].
  apply String.eqb_neq in Hne. split; [exact Hne|].
  unfold bindM at 1 in H. unfold reads at 1 in H.
  destruct (getPoolById ctx (Id poolI)) as [pool| | |] eqn:Hpool; try discriminate.
  unfold bindM at 1 in H.
  assert (Hlim :
    (if String.eqb (Denom tokenIn) (Token0 pool)
     then SwapOutAmtGivenIn fuel tokenIn tokenOutDenom swapFee (NewDec 1) (Id pool)
     else SwapOutAmtGivenIn fuel tokenIn tokenOutDenom swapFee (NewDec 999999999999)
                            (Id pool)) =
    SwapOutAmtGivenIn fuel tokenIn tokenOutDenom swapFee (limitFor tokenIn pool) (Id pool)).
  { unfold limitFor. destruct (String.eqb (Denom tokenIn) (Token0 pool)); reflexivity. }
  rewrite Hlim in H. clear Hlim.
  destruct (SwapOutAmtGivenIn fuel tokenIn tokenOutDenom swapFee
              (limitFor tokenIn pool) (Id pool) ctx) as [r1 ctx1] eqn:Hswap.
  destruct r1 as [tokenOutCoin| | |]; try discriminate.
  destruct (0 <? Amount tokenOutCoin) eqn:Hpos; simpl in H; [|discriminate].
  destruct (Amount tokenOutCoin <? tokenOutMinAmount) eqn:Hmin; [discriminate|].
  apply Z.ltb_lt in Hpos. apply Z.ltb_ge in Hmin.
  unfold updatePoolForSwap, bindM, writes, ret in H.
  destruct (SendCoins ctx1 sender (Address pool) [tokenIn]) as [ctx2| | |] eqn:Hs1;
    try discriminate.
  destruct (SendCoins ctx2 (Address pool) sender [tokenOutCoin]) as [ctx3| | |] eqn:Hs2;
    try discriminate.
  inversion H; subst.
  split; [exact Hpos|]. split; [exact Hmin|].
  exists pool, tokenOutCoin, ctx1, ctx2, ctx3. repeat split; assumption.
Qed.

(** X8.  [SwapExactAmountIn] never returns less than the caller's minimum,
    and never returns zero or less: the amount of a successful call is
    positive and at least [tokenOutMinAmount], and the two denominations of
    the request differ. *)
Theorem SwapExactAmountIn_success_bounds
    fuel sender poolI tokenIn tokenOutDenom tokenOutMinAmount swapFee ctx amount ctx' :
  SwapExactAmountIn fuel sender poolI tokenIn tokenOutDenom tokenOutMinAmount swapFee ctx
    = (Ok amount, ctx') ->
  0 < amount /\ tokenOutMinAmount <= amount /\ Denom tokenIn <> tokenOutDenom.
Proof.
  intros H. apply SwapExactAmountIn_Ok_inv in H.
  destruct H as (Hne & Hpos & Hmin & _). auto.
Qed.

(** X9.  How a successful [SwapExactAmountIn] settles: on the store that
    the inner swap has written, the sender pays the pool's account the
    whole input coin of the request (not the realized input), the pool's
    account pays the sender the output coin of the inner swap, whose amount
    is the amount returned, and the swap event is emitted last. *)
Theorem SwapExactAmountIn_success_settlement
    fuel sender poolI tokenIn tokenOutDenom tokenOutMinAmount swapFee ctx amount ctx' :
  SwapExactAmountIn fuel sender poolI tokenIn tokenOutDenom tokenOutMinAmount swapFee ctx
    = (Ok amount, ctx') ->
  exists pool tokenOutCoin ctx1 ctx2 ctx3,
    getPoolById ctx (Id poolI) = Ok pool /\
    SwapOutAmtGivenIn fuel tokenIn tokenOutDenom swapFee (limitFor tokenIn pool)
                      (Id pool) ctx = (Ok tokenOutCoin, ctx1) /\
    tokenOutCoin = mkCoin tokenOutDenom amount /\
    SendCoins ctx1 sender (Address pool) [tokenIn] = Ok ctx2 /\
    SendCoins ctx2 (Address pool) sender [tokenOutCoin] = Ok ctx3 /\
    ctx' = EmitSwapEvent ctx3 sender (Id pool) tokenIn tokenOutCoin.
Proof.
  intros H. apply SwapExactAmountIn_Ok_inv in H.
  destruct H as (_ & _ & _ & pool & coin & ctx1 & ctx2 & ctx3 &
                 Hp & Hswap & Hamt & Hs1 & Hs2 & Hctx).
  exists pool, coin, ctx1, ctx2, ctx3.
  repeat split; try assumption.
  pose proof (SwapOutAmtGivenIn_Ok_inv _ _ _ _ _ _ _ _ _ Hswap)
    as (calcIn & t & l & sp & _ & _ & Hcalc & _).
  apply CalcOutAmtGivenIn_coins_valid in Hcalc.
  destruct Hcalc as (_ & (Dout & _ & _)).
  destruct coin as [d a]; simpl in *. congruence.
Qed.

(** X10.  A swap with nothing to swap is never carried out: when the
    after-fee input does not exceed the tolerance of [10^-7] (a zero
    amount, a fee of one), [SwapExactAmountIn] does not succeed, whatever
    the pool, the store and the minimum. *)
Theorem SwapExactAmountIn_nothing_to_swap
    fuel sender poolI tokenIn tokenOutDenom tokenOutMinAmount swapFee ctx :
  amountAfterFee tokenIn swapFee <= epsilonOutGivenIn ->
  isOk (fst (SwapExactAmountIn fuel sender poolI tokenIn tokenOutDenom
                               tokenOutMinAmount swapFee ctx)) = false.
Proof.
  intros Hdust.
  destruct (SwapExactAmountIn fuel sender poolI tokenIn tokenOutDenom
              tokenOutMinAmount swapFee ctx) as [r ctx'] eqn:Hrun.
  destruct r as [amount| | |]; try reflexivity. exfalso.
  apply SwapExactAmountIn_Ok_inv in Hrun.
  destruct Hrun as (_ & Hpos & _ & pool & coin & ctx1 & _ & _ & _ & Hswap & Hamt & _).
  apply SwapOutAmtGivenIn_Ok_inv in Hswap.
  destruct Hswap as (calcIn & t & l & sp & _ & _ & Hcalc & _).
  apply CalcOutAmtGivenIn_inv in Hcalc.
  destruct Hcalc as (p & lim & st & _ & _ & Hloop & _ & Hout & _).
  rewrite loopOutGivenIn_done in Hloop.
  - inversion Hloop; subst st. subst coin. simpl in Hamt.
    rewrite TruncateInt_zero in Hamt. lia.
  - unfold condOutGivenIn, initOutGivenIn, GT; simpl.
    apply andb_false_iff. left. apply Z.ltb_ge. exact Hdust.
Qed.

(** X11.  The two transfers are not one: when the inner swap has succeeded
    with an acceptable output and the sender's payment goes through but the
    pool's payout fails, [SwapExactAmountIn] returns the payout's error and
    leaves the store with the pool written and the payment made. *)
Theorem SwapExactAmountIn_payout_fails
    fuel sender poolI tokenIn tokenOutDenom tokenOutMinAmount swapFee ctx
    pool tokenOutCoin ctx1 ctx2 e :
  String.eqb (Denom tokenIn) tokenOutDenom = false ->
  getPoolById ctx (Id poolI) = Ok pool ->
  SwapOutAmtGivenIn fuel tokenIn tokenOutDenom swapFee (limitFor tokenIn pool) (Id pool) ctx
    = (Ok tokenOutCoin, ctx1) ->
  0 < Amount tokenOutCoin ->
  tokenOutMinAmount <= Amount tokenOutCoin ->
  SendCoins ctx1 sender (Address pool) [tokenIn] = Ok ctx2 ->
  SendCoins ctx2 (Address pool) sender [tokenOutCoin] = Err e ->
  SwapExactAmountIn fuel sender poolI tokenIn tokenOutDenom tokenOutMinAmount swapFee ctx
    = (Err e, ctx2).
Proof.
  intros Hne Hpool Hswap Hpos Hmin Hs1 Hs2.
  unfold SwapExactAmountIn. rewrite Hne.
  unfold bindM at 1. unfold reads at 1. rewrite Hpool.
  unfold bindM at 1.
  unfold limitFor in Hswap.
  apply Z.ltb_lt in Hpos. apply Z.ltb_ge in Hmin.
  destruct (String.eqb (Denom tokenIn) (Token0 pool)); rewrite Hswap;
    rewrite Hpos, Hmin; simpl;
    unfold updatePoolForSwap, bindM, writes; rewrite Hs1, Hs2; reflexivity.
Qed.

End SwapSuccess.

(** ** More on the exact-out orchestrator *)

Section ExactOutMore.
Context `{C : Collaborators}.

Lemma checkInGivenOut_Ok_inv p tokenOut tokenInDenom minPrice maxPrice lo hi :
  checkInGivenOut p tokenOut tokenInDenom minPrice maxPrice = Ok (lo, hi) ->
  (Denom tokenOut = Token0 p \/ Denom tokenOut = Token1 p) /\
  (tokenInDenom = Token0 p \/ tokenInDenom = Token1 p) /\
  Denom tokenOut <> tokenInDenom /\
  minPrice < Power2 (CurrentSqrtPrice p) < maxPrice /\
  ApproxSqrt minPrice = Ok lo /\ ApproxSqrt maxPrice = Ok hi.
Proof.
  unfold checkInGivenOut, GTE, LTE. intros H.
  destruct (String.eqb (Denom tokenOut) (Token0 p)) eqn:Ho0;
    destruct (String.eqb (Denom tokenOut) (Token1 p)) eqn:Ho1;
    destruct (String.eqb tokenInDenom (Token0 p)) eqn:Hi0;
    destruct (String.eqb tokenInDenom (Token1 p)) eqn:Hi1;
    destruct (String.eqb (Denom tokenOut) tokenInDenom) eqn:Hoi;
    simpl in H; try discriminate;
    destruct (Power2 (CurrentSqrtPrice p) <=? minPrice) eqn:Hmin; try discriminate;
    destruct (maxPrice <=? Power2 (CurrentSqrtPrice p)) eqn:Hmax; try discriminate;
    bind_inv H; bind_inv H; apply orErr_Ok_inv in Ha, Ha0;
    inversion H; subst;
    apply Z.leb_gt in Hmin; apply Z.leb_gt in Hmax;
    rewrite ?String.eqb_eq, ?String.eqb_neq in *; auto 10.
Qed.

(** X13.  A successful [CalcInAmtGivenOut] was asked for one of the pool's
    two denominations against the other, the two being different, over a
    band that holds the pool's price strictly inside; the coin it returns
    is non-negative and in the denomination named for the input. *)
Theorem CalcInAmtGivenOut_success_request
    fuel ctx tokenOut tokenInDenom swapFee minPrice maxPrice poolId
    tokenIn newLiquidity newTick newSqrtPrice :
  CalcInAmtGivenOut fuel ctx tokenOut tokenInDenom swapFee minPrice maxPrice poolId
    = Ok (tokenIn, newLiquidity, newTick, newSqrtPrice) ->
  exists p,
    getPoolById ctx poolId = Ok p /\
    Token0 p <> Token1 p /\
    ((Denom tokenOut = Token0 p /\ tokenInDenom = Token1 p) \/
     (Denom tokenOut = Token1 p /\ tokenInDenom = Token0 p)) /\
    minPrice < Power2 (CurrentSqrtPrice p) < maxPrice /\
    Denom tokenIn = tokenInDenom /\ 0 <= Amount tokenIn.
Proof.
  unfold CalcInAmtGivenOut. intros H.
  bind_inv H. rename a into p. exists p. split; [assumption|].
  bind_inv H. destruct a as [lo hi].
  apply checkInGivenOut_Ok_inv in Ha0.
  destruct Ha0 as (Ho & Hi & Hne & Hband & _).
  bind_inv H. bind_inv H. apply NewCoin_Ok_valid in Ha1.
  destruct Ha1 as (-> & _ & Hpos). inversion H; subst; simpl.
  split; [destruct Ho, Hi; congruence|].
  split; [destruct Ho, Hi; [congruence | auto | auto | congruence]|].
  auto.
Qed.

(** X14.  When [SwapInAmtGivenOut] succeeds, the liquidity it has handed
    to [ApplySwap] is the nil [Dec{}] and the square-root price is the one
    the pool already had: the pool it writes is built from no liquidity and
    an unmoved price. *)
Theorem SwapInAmtGivenOut_success
    fuel tokenOut tokenInDenom swapFee minPrice maxPrice poolId ctx tokenIn ctx' :
  SwapInAmtGivenOut fuel tokenOut tokenInDenom swapFee minPrice maxPrice poolId ctx
    = (Ok tokenIn, ctx') ->
  exists pool pool' newTick,
    getPoolById ctx poolId = Ok pool /\
    ApplySwap ctx pool poolId None newTick (CurrentSqrtPrice pool) = Ok pool' /\
    setPool ctx pool' = Ok ctx'.
Proof.
  unfold SwapInAmtGivenOut, bindM, reads. intros H.
  destruct (CalcInAmtGivenOut _ _ _ _ _ _ _ _) as [calc| | |] eqn:Hcalc;
    try discriminate.
  destruct calc as [[[coin l] t] sp].
  destruct (getPoolById ctx poolId) as [pool| | |] eqn:Hpool; try discriminate.
  destruct (ApplySwap _ _ _ _ _ _) as [pool'| | |] eqn:Happly; try discriminate.
  unfold writes in H.
  destruct (setPool ctx pool') as [ctx1| | |] eqn:Hset; try discriminate.
  inversion H; subst.
  unfold CalcInAmtGivenOut in Hcalc. rewrite Hpool in Hcalc. simpl in Hcalc.
  apply bind_Ok_inv in Hcalc. destruct Hcalc as ([lo hi] & _ & Hcalc).
  apply bind_Ok_inv in Hcalc. destruct Hcalc as (st & Hloop & Hcalc).
  apply bind_Ok_inv in Hcalc. destruct Hcalc as (c & _ & Hcalc).
  apply loopInGivenOut_runs in Hloop.
  pose proof (runsInGivenOut_liquidity _ _ _ _ _ _ _ _ Hloop eq_refl) as Hnil.
  pose proof (runsInGivenOut_sqrtPrice _ _ _ _ _ _ _ _ Hloop) as Hsp.
  inversion Hcalc; subst. rewrite Hnil, Hsp in Happly.
  exists pool, pool', (tick st). auto.
Qed.

(** X15.  [SwapInAmtGivenOut] serves only pools whose price lies strictly
    between zero and 9999999999: on any other pool it fails and writes
    nothing, whatever band the caller names. *)
Theorem SwapInAmtGivenOut_price_outside_fixed_band
    fuel tokenOut tokenInDenom swapFee minPrice maxPrice poolId ctx p :
  getPoolById ctx poolId = Ok p ->
  Power2 (CurrentSqrtPrice p) <= 0 \/ NewDec 9999999999 <= Power2 (CurrentSqrtPrice p) ->
  exists r,
    SwapInAmtGivenOut fuel tokenOut tokenInDenom swapFee minPrice maxPrice poolId ctx
      = (r, ctx) /\ isOk r = false.
Proof.
  intros Hpool Hout.
  unfold SwapInAmtGivenOut, bindM, reads.
  destruct (CalcInAmtGivenOut fuel ctx tokenOut tokenInDenom swapFee
              ZeroDec (NewDec 9999999999) poolId) as [calc| | |] eqn:Hcalc;
    try (eexists; split; reflexivity).
  exfalso. destruct calc as [[[coin l] t] sp].
  unfold CalcInAmtGivenOut in Hcalc. rewrite Hpool in Hcalc. simpl in Hcalc.
  bind_inv Hcalc. destruct a as [lo hi].
  apply checkInGivenOut_Ok_inv in Ha.
  destruct Ha as (_ & _ & _ & Hband & _). unfold ZeroDec in Hband. lia.
Qed.

Lemma stepInGivenOut_full_fee ctx p poolId zeroForOne liq swapState :
  isOk (stepInGivenOut ctx p poolId zeroForOne OneDec liq swapState) = false.
Proof.
  unfold stepInGivenOut.
  destruct (Int64 (tick swapState)); try reflexivity. simpl.
  destruct (NextInitializedTick _ _ _ _) as [nextTick ok].
  destruct ok; simpl; [|reflexivity].
  destruct (TickToSqrtPrice nextTick); try reflexivity. simpl.
  destruct (ComputeSwapStep _ _ _ _ _) as [[sqrtPrice' amountIn] amountOut].
  unfold Quo, Sub. reflexivity.
Qed.

(** X16.  With a fee of one, [CalcInAmtGivenOut] cannot price any output of
    one unit or more: every pass that gets as far as the fee divides by
    zero, so the call does not succeed. *)
Theorem CalcInAmtGivenOut_full_fee
    fuel ctx tokenOut tokenInDenom minPrice maxPrice poolId :
  1 <= Amount tokenOut ->
  isOk (CalcInAmtGivenOut fuel ctx tokenOut tokenInDenom OneDec minPrice maxPrice poolId)
    = false.
Proof.
  intros Hamt. unfold CalcInAmtGivenOut.
  destruct (getPoolById ctx poolId) as [p| | |]; try reflexivity. simpl.
  destruct (checkInGivenOut p tokenOut tokenInDenom minPrice maxPrice)
    as [[lo hi]| | |]; try reflexivity. simpl.
  assert (Hcond : condInGivenOut (initInGivenOut p (ToDec (Amount tokenOut))) = true).
  { unfold condInGivenOut, initInGivenOut, GT, ToDec; simpl.
    apply Z.ltb_lt. unfold epsilonInGivenOut, NewDecWithPrec, precisionReuse.
    change (1 * 10 ^ (18 - 6)) with 1000000000000. lia. }
  destruct fuel as [|fuel]; simpl; rewrite Hcond; [reflexivity|].
  pose proof (stepInGivenOut_full_fee ctx p poolId
                (String.eqb (Denom tokenOut) (Token0 p))
                (MinDec (Liquidity0 1000000 (CurrentSqrtPrice p) hi)
                        (Liquidity1 5000000000 (CurrentSqrtPrice p) lo))
                (initInGivenOut p (ToDec (Amount tokenOut)))) as Hstep.
  destruct (stepInGivenOut _ _ _ _ _ _ _); try discriminate; reflexivity.
Qed.


End ExactOutMore.

(** ** The end-block logic *)

Section EndBlockFacts.
Import EndBlock.
Context `{K : GammKeeper}.

Lemma tokenOutDenomFor_inv (assetsInPool : list Coin) (curToken d : string) :
  tokenOutDenomFor assetsInPool curToken = inr d ->
  exists c0 rest,
    assetsInPool = c0 :: rest /\
    ((Denom c0 = curToken /\ exists c1 rest', rest = c1 :: rest' /\ d = Denom c1) \/
     (Denom c0 <> curToken /\ d = Denom c0)).
Proof.
  unfold tokenOutDenomFor, GetDenomByIndex.
  destruct assetsInPool as [|c0 rest]; simpl; [discriminate|].
  intros H. exists c0, rest. split; [reflexivity|].
  destruct (String.eqb curToken (Denom c0)) eqn:Heq.
  - apply String.eqb_eq in Heq. left. split; [auto|].
    destruct rest as [|c1 rest']; simpl in H; [discriminate|].
    inversion H. eauto.
  - apply String.eqb_neq in Heq. right. simpl in H. inversion H. auto.
Qed.

(** X18.  [EndBlockLogic] returns nil only after exactly this: pool 1
    exists, and the gamm keeper has swapped, for the empty sender address,
    1000000 uosmo through pool 1 with a minimum output of zero, into the
    first denomination of the chain-wide total liquidity, or into the second
    when the first is uosmo.  The amount received is non-negative and the
    store is the one the swap left. *)
Theorem EndBlockLogic_returns_nil (ctx ctx' : KCtx) :
  EndBlockLogic ctx = Returns None ctx' ->
  exists pool c0 rest tokenOutDenom sentCoins,
    gammKeeper_GetPool ctx 1%N = Ok pool /\
    gammKeeper_GetTotalLiquidity ctx = c0 :: rest /\
    ((Denom c0 = "uosmo" /\ exists c1 rest', rest = c1 :: rest' /\
                                           tokenOutDenom = Denom c1) \/
     (Denom c0 <> "uosmo" /\ tokenOutDenom = Denom c0)) /\
    gammKeeper_SwapExactAmountIn ctx EmptyString 1%N (mkCoin "uosmo" 1000000)
                                 tokenOutDenom 0 = (Ok sentCoins, ctx') /\
    0 <= sentCoins /\ ValidateDenom tokenOutDenom = true.
Proof.
  unfold EndBlockLogic.
  change (NewCoin "uosmo" 1000000) with (Ok (mkCoin "uosmo" 1000000)).
  cbn [swapThrough]. intros H.
  destruct (gammKeeper_GetPool ctx 1%N) as [pool| | |] eqn:Hpool; try discriminate.
  destruct (tokenOutDenomFor (gammKeeper_GetTotalLiquidity ctx) "uosmo")
    as [a|tokenOutDenom] eqn:Hden; [discriminate|].
  destruct (gammKeeper_SwapExactAmountIn ctx EmptyString 1%N (mkCoin "uosmo" 1000000)
              tokenOutDenom 0) as [r ctx1] eqn:Hswap.
  destruct r as [sentCoins| | |]; try discriminate.
  destruct (NewCoin tokenOutDenom sentCoins) as [coin| | |] eqn:Hcoin; try discriminate.
  inversion H; subst.
  apply NewCoin_Ok_valid in Hcoin. destruct Hcoin as (_ & Hv & Hpos).
  apply tokenOutDenomFor_inv in Hden. destruct Hden as (c0 & rest & Hliq & Hcase).
  exists pool, c0, rest, tokenOutDenom, sentCoins. auto 10.
Qed.

(** X19.  An error returned by [EndBlockLogic] is the error of the pool
    lookup, with the store untouched, or the error of the gamm keeper's
    swap, with the store as that swap left it; it has no error of its
    own. *)
Theorem EndBlockLogic_returns_error (ctx ctx' : KCtx) (e : error) :
  EndBlockLogic ctx = Returns (Some e) ctx' ->
  (gammKeeper_GetPool ctx 1%N = Err e /\ ctx' = ctx) \/
  (exists pool tokenOutDenom,
      gammKeeper_GetPool ctx 1%N = Ok pool /\
      tokenOutDenomFor (gammKeeper_GetTotalLiquidity ctx) "uosmo" = inr tokenOutDenom /\
      gammKeeper_SwapExactAmountIn ctx EmptyString 1%N (mkCoin "uosmo" 1000000)
                                   tokenOutDenom 0 = (Err e, ctx')).
Proof.
  unfold EndBlockLogic.
  change (NewCoin "uosmo" 1000000) with (Ok (mkCoin "uosmo" 1000000)).
  cbn [swapThrough]. intros H.
  destruct (gammKeeper_GetPool ctx 1%N) as [pool| | |] eqn:Hpool; try discriminate.
  - destruct (tokenOutDenomFor (gammKeeper_GetTotalLiquidity ctx) "uosmo")
      as [a|tokenOutDenom] eqn:Hden; [discriminate|].
    destruct (gammKeeper_SwapExactAmountIn ctx EmptyString 1%N (mkCoin "uosmo" 1000000)
                tokenOutDenom 0) as [r ctx1] eqn:Hswap.
    destruct r as [sentCoins| | |]; try discriminate.
    + destruct (NewCoin tokenOutDenom sentCoins); discriminate.
    + inversion H; subst. right. exists pool, tokenOutDenom. auto.
  - inversion H; subst. left. auto.
Qed.

(** X20.  [EndBlockLogic] reads the denominations by position and does not
    look at the length first: when pool 1 exists and the chain-wide total
    liquidity is empty, or holds uosmo and nothing else, the call aborts on
    an index out of range, before any swap. *)
Theorem EndBlockLogic_short_total_liquidity (ctx : KCtx) (pool : GammPool) :
  gammKeeper_GetPool ctx 1%N = Ok pool ->
  gammKeeper_GetTotalLiquidity ctx = [] \/
  (exists c, gammKeeper_GetTotalLiquidity ctx = [c] /\ Denom c = "uosmo") ->
  exists i, EndBlockLogic ctx = Aborts (IndexOutOfRange i).
Proof.
  intros Hpool Hliq. unfold EndBlockLogic.
  change (NewCoin "uosmo" 1000000) with (Ok (mkCoin "uosmo" 1000000)).
  cbn [swapThrough]. rewrite Hpool.
  destruct Hliq as [-> | (c & -> & Hc)].
  - exists 0%nat. reflexivity.
  - exists 1%nat. unfold tokenOutDenomFor, GetDenomByIndex; simpl.
    rewrite Hc. reflexivity.
Qed.

End EndBlockFacts.

(** ** The price limit *)

Section PriceLimit.
Context `{C : Collaborators}.

(** X21.  The step calculator is never asked to go past the price limit:
    in every pass of the exact-in loop the target handed to
    [ComputeSwapStep] is the square-root price of the next initialized tick
    or the limit, whichever comes first in the direction of the swap; the
    pass takes the step's input off the remaining amount and adds the step's
    output to the calculated amount. *)
Theorem CalcOutAmtGivenIn_target_within_limit
    ctx p poolId zeroForOne sqrtPriceLimit swapState swapState'
    tick64 nextTick ok nextSqrtPrice liq :
  stepOutGivenIn ctx p poolId zeroForOne sqrtPriceLimit swapState = Ok swapState' ->
  Int64 (tick swapState) = Ok tick64 ->
  NextInitializedTick ctx poolId tick64 zeroForOne = (nextTick, ok) ->
  TickToSqrtPrice nextTick = Ok nextSqrtPrice ->
  liquidity swapState = Some liq ->
  exists amountIn amountOut,
    ComputeSwapStep (sqrtPrice swapState)
      (if zeroForOne then Z.max nextSqrtPrice sqrtPriceLimit
       else Z.min nextSqrtPrice sqrtPriceLimit)
      liq (amountSpecifiedRemaining swapState) zeroForOne
      = (sqrtPrice swapState', amountIn, amountOut) /\
    amountSpecifiedRemaining swapState' = amountSpecifiedRemaining swapState - amountIn /\
    amountCalculated swapState' = amountCalculated swapState + amountOut.
Proof.
  unfold stepOutGivenIn. intros Hstep Htick Hnext Hsqrt Hliq.
  rewrite Htick in Hstep. simpl in Hstep. rewrite Hnext in Hstep.
  destruct ok; simpl in Hstep; [|discriminate].
  rewrite Hsqrt, Hliq in Hstep. simpl in Hstep.
  assert (Htarget :
    (if (zeroForOne && LT nextSqrtPrice sqrtPriceLimit) ||
        (negb zeroForOne && GT nextSqrtPrice sqrtPriceLimit)
     then sqrtPriceLimit else nextSqrtPrice) =
    (if zeroForOne then Z.max nextSqrtPrice sqrtPriceLimit
     else Z.min nextSqrtPrice sqrtPriceLimit)).
  { unfold LT, GT. destruct zeroForOne; simpl.
    - rewrite orb_false_r.
      destruct (nextSqrtPrice <? sqrtPriceLimit) eqn:Hlt;
        [apply Z.ltb_lt in Hlt | apply Z.ltb_ge in Hlt]; lia.
    - destruct (sqrtPriceLimit <? nextSqrtPrice) eqn:Hlt;
        [apply Z.ltb_lt in Hlt | apply Z.ltb_ge in Hlt]; lia. }
  rewrite Htarget in Hstep. clear Htarget.
  destruct (ComputeSwapStep _ _ _ _ _) as [[sqrtPrice' amountIn] amountOut].
  exists amountIn, amountOut.
  destruct (Equal nextSqrtPrice sqrtPrice').
  - bind_inv Hstep. inversion Hstep; subst; simpl. auto.
  - destruct (negb (Equal (sqrtPrice swapState) sqrtPrice'));
      inversion Hstep; subst; simpl; auto.
Qed.

(** X22.  A successful [CalcOutAmtGivenIn] returns a liquidity that is
    set: the exact-in loop starts from the pool's liquidity and no pass
    loses it. *)
Theorem CalcOutAmtGivenIn_returns_liquidity
    fuel ctx tokenInMin tokenOutDenom swapFee priceLimit poolId
    tokenIn tokenOut updatedTick updatedLiquidity updatedSqrtPrice :
  CalcOutAmtGivenIn fuel ctx tokenInMin tokenOutDenom swapFee priceLimit poolId
    = Ok (tokenIn, tokenOut, updatedTick, updatedLiquidity, updatedSqrtPrice) ->
  exists l, updatedLiquidity = Some l.
Proof.
  intros H. apply CalcOutAmtGivenIn_inv in H.
  destruct H as (p & lim & st & _ & _ & Hloop & _ & _ & _ & -> & _).
  apply loopOutGivenIn_runs in Hloop.
  apply runsOutGivenIn_liquidity in Hloop; [|discriminate].
  destruct (liquidity st) as [l|]; [eauto | congruence].
Qed.

(** X23.  [SwapExactAmountIn] sells the pool's first asset only down to a
    price of one: its price limit for that direction is the constant 1, so
    on a pool whose current square-root price is below the square root of 1
    every such swap is refused as "invalid price limit", and nothing is
    written. *)
Theorem SwapExactAmountIn_below_hard_limit
    fuel sender poolI tokenIn tokenOutDenom tokenOutMinAmount swapFee ctx pool one :
  Denom tokenIn <> tokenOutDenom ->
  getPoolById ctx (Id poolI) = Ok pool ->
  getPoolById ctx (Id pool) = Ok pool ->
  Denom tokenIn = Token0 pool ->
  ApproxSqrt (NewDec 1) = Ok one ->
  CurrentSqrtPrice pool < one ->
  SwapExactAmountIn fuel sender poolI tokenIn tokenOutDenom tokenOutMinAmount swapFee ctx
    = (Err (ErrInvalidPriceLimit (NewDec 1)), ctx).
Proof.
  intros Hne Hpool Hpool' Hzero Hsqrt Hlt.
  apply String.eqb_neq in Hne.
  unfold SwapExactAmountIn. rewrite Hne.
  unfold bindM at 1. unfold reads at 1. rewrite Hpool.
  unfold bindM at 1.
  assert (Hz : String.eqb (Denom tokenIn) (Token0 pool) = true)
    by (apply String.eqb_eq; exact Hzero).
  rewrite Hz.
  unfold SwapOutAmtGivenIn, bindM, reads.
  unfold CalcOutAmtGivenIn. rewrite Hpool'. simpl.
  unfold checkOutGivenIn. rewrite Hsqrt. simpl.
  unfold invalidPriceLimit. rewrite Hz. simpl.
  unfold GT. apply Z.ltb_lt in Hlt. rewrite Hlt. reflexivity.
Qed.

End PriceLimit.

(** ** Further runs on the example market *)

(** X1 at work: 500 usdc for eth on pool 1 with a price limit of 26.01. *)
Lemma CalcOutAmtGivenIn_success_request_witness :
  exists p sqrtPriceLimit,
    getPoolById world 1%N = Ok p /\
    ApproxSqrt limit26 = Ok sqrtPriceLimit /\
    Token0 p <> Token1 p /\
    ((Denom (usdc 500) = Token0 p /\ "eth" = Token1 p /\
      MinSqrtRatio <= sqrtPriceLimit <= CurrentSqrtPrice p) \/
     (Denom (usdc 500) = Token1 p /\ "eth" = Token0 p /\
      CurrentSqrtPrice p <= sqrtPriceLimit <= MaxSqrtRatio)).
Proof.
  apply (CalcOutAmtGivenIn_success_request 10 world (usdc 500) "eth" 0 limit26 1%N
           (usdc 130) (eth 5) 5 (Some (NewDec 1303)) 5100000000000000000).
  vm_compute; reflexivity.
Defined.



(** X5 at work: 500 usdc offered to pool 1 when no position exists. *)
Lemma CalcOutAmtGivenIn_no_initialized_tick_witness :
  CalcOutAmtGivenIn 1 bareWorld (usdc 500) "eth" 0 (NewDec 36) 1 = Err ErrNoMoreTicks.
Proof.
  apply (CalcOutAmtGivenIn_no_initialized_tick
           0 bareWorld (usdc 500) "eth" 0 (NewDec 36) 1%N pool1 (NewDec 6) 5 0);
    vm_compute; first [reflexivity | discriminate].
Defined.

(** X6 at work: with the limit at 5.1 the first pass takes 130.3 usdc and
    stops short of tick 8; liquidity and tick stay as they were. *)
Lemma CalcOutAmtGivenIn_within_tick_witness :
  liquidity (mkSwapState 369700000000000000000 5109803921568627451
                         5100000000000000000 5 (Some (NewDec 1303)))
    = liquidity (initOutGivenIn pool1 (NewDec 500)) /\
  tick (mkSwapState 369700000000000000000 5109803921568627451
                    5100000000000000000 5 (Some (NewDec 1303)))
    = (if sqrtPrice (initOutGivenIn pool1 (NewDec 500)) =? 5100000000000000000
       then tick (initOutGivenIn pool1 (NewDec 500))
       else PriceToTick (Power2 5100000000000000000)).
Proof.
  apply (CalcOutAmtGivenIn_within_tick world pool1 1%N false 5100000000000000000
           (initOutGivenIn pool1 (NewDec 500))
           (mkSwapState 369700000000000000000 5109803921568627451
                        5100000000000000000 5 (Some (NewDec 1303)))
           5 8 true (NewDec 8));
    vm_compute; first [reflexivity | discriminate].
Defined.

(** X7 at work: 1303 usdc buy 43 eth from pool 1. *)
Lemma SwapOutAmtGivenIn_success_witness :
  exists calcTokenIn newTick newLiquidity newSqrtPrice pool pool',
    CalcOutAmtGivenIn 10 world (usdc 1303) "eth" 0 (NewDec 999999999999) 1%N
      = Ok (calcTokenIn, eth 43, newTick, newLiquidity, newSqrtPrice) /\
    0 <= Amount calcTokenIn <= Amount (usdc 1303) /\
    0 <= Amount (eth 43) /\ Denom (eth 43) = "eth" /\
    getPoolById world 1%N = Ok pool /\
    ApplySwap world pool 1%N newLiquidity newTick newSqrtPrice = Ok pool' /\
    setPool world pool'
      = Ok (snd (SwapOutAmtGivenIn 10 (usdc 1303) "eth" 0 (NewDec 999999999999) 1%N world)).
Proof.
  apply (SwapOutAmtGivenIn_success 10 (usdc 1303) "eth" 0 (NewDec 999999999999) 1%N
           world (eth 43)).
  vm_compute; reflexivity.
Defined.

(** X8 at work: the same trade through [SwapExactAmountIn] with a minimum
    of 40. *)
Lemma SwapExactAmountIn_success_bounds_witness :
  0 < 43 /\ 40 <= 43 /\ Denom (usdc 1303) <> "eth".
Proof.
  apply (SwapExactAmountIn_success_bounds 10 "alice" pool1 (usdc 1303) "eth" 40 0 world 43
           (snd (SwapExactAmountIn 10 "alice" pool1 (usdc 1303) "eth" 40 0 world))).
  vm_compute; reflexivity.
Defined.

(** X9 at work, on the same trade. *)
Lemma SwapExactAmountIn_success_settlement_witness :
  exists pool tokenOutCoin ctx1 ctx2 ctx3,
    getPoolById world (Id pool1) = Ok pool /\
    SwapOutAmtGivenIn 10 (usdc 1303) "eth" 0 (limitFor (usdc 1303) pool) (Id pool) world
      = (Ok tokenOutCoin, ctx1) /\
    tokenOutCoin = mkCoin "eth" 43 /\
    SendCoins ctx1 "alice" (Address pool) [usdc 1303] = Ok ctx2 /\
    SendCoins ctx2 (Address pool) "alice" [tokenOutCoin] = Ok ctx3 /\
    snd (SwapExactAmountIn 10 "alice" pool1 (usdc 1303) "eth" 40 0 world)
      = EmitSwapEvent ctx3 "alice" (Id pool) (usdc 1303) tokenOutCoin.
Proof.
  apply (SwapExactAmountIn_success_settlement
           10 "alice" pool1 (usdc 1303) "eth" 40 0 world 43).
  vm_compute; reflexivity.
Defined.

(** X10 at work: zero usdc offered through [SwapExactAmountIn]. *)
Lemma SwapExactAmountIn_nothing_to_swap_witness :
  isOk (fst (SwapExactAmountIn 10 "alice" pool1 (usdc 0) "eth" 0 0 world)) = false.
Proof.
  apply (SwapExactAmountIn_nothing_to_swap 10 "alice" pool1 (usdc 0) "eth" 0 0 world).
  vm_compute; discriminate.
Defined.

(** X11 at work: alice pays 1303 usdc, the account of pool 1 holds no eth
    to pay her 43. *)
Lemma SwapExactAmountIn_payout_fails_witness :
  SwapExactAmountIn 10 "alice" pool1 (usdc 1303) "eth" 40 0 unfundedWorld
    = (Err insufficientFunds,
       match SendCoins (snd (SwapOutAmtGivenIn 10 (usdc 1303) "eth" 0
                               (limitFor (usdc 1303) pool1) (Id pool1) unfundedWorld))
                       "alice" (Address pool1) [usdc 1303] with
       | Ok paid => paid
       | _ => unfundedWorld
       end).
Proof.
  apply (SwapExactAmountIn_payout_fails
           10 "alice" pool1 (usdc 1303) "eth" 40 0 unfundedWorld pool1 (eth 43)
           (snd (SwapOutAmtGivenIn 10 (usdc 1303) "eth" 0
                   (limitFor (usdc 1303) pool1) (Id pool1) unfundedWorld)));
    vm_compute; first [reflexivity | discriminate].
Defined.

(** X12 at work: 300 usdc bought from pool 1; the liquidity that comes back
    is nil. *)
Lemma CalcInAmtGivenOut_returns_nil_liquidity_witness :
  @None Dec = None.
Proof.
  apply (CalcInAmtGivenOut_returns_nil_liquidity
           10 world (usdc 300) "eth" 0 (NewDec 16) (NewDec 36) 1%N
           (eth 12) None 5 (NewDec 5)).
  vm_compute; reflexivity.
Defined.

(** X13 at work, on the same call. *)
Lemma CalcInAmtGivenOut_success_request_witness :
  exists p,
    getPoolById world 1%N = Ok p /\
    Token0 p <> Token1 p /\
    ((Denom (usdc 300) = Token0 p /\ "eth" = Token1 p) \/
     (Denom (usdc 300) = Token1 p /\ "eth" = Token0 p)) /\
    NewDec 16 < Power2 (CurrentSqrtPrice p) < NewDec 36 /\
    Denom (eth 12) = "eth" /\ 0 <= Amount (eth 12).
Proof.
  apply (CalcInAmtGivenOut_success_request
           10 world (usdc 300) "eth" 0 (NewDec 16) (NewDec 36) 1%N
           (eth 12) None 5 (NewDec 5)).
  vm_compute; reflexivity.
Defined.

(** X14 at work: on the market whose pools put up with a nil liquidity,
    300 usdc are bought through [SwapInAmtGivenOut]. *)
Lemma SwapInAmtGivenOut_success_witness :
  exists pool pool' newTick,
    @getPoolById lenient lenientWorld 1%N = Ok pool /\
    @ApplySwap lenient lenientWorld pool 1%N None newTick (CurrentSqrtPrice pool)
      = Ok pool' /\
    @setPool lenient lenientWorld pool'
      = Ok (snd (@SwapInAmtGivenOut lenient 10 (usdc 300) "eth" 0
                   (NewDec 16) (NewDec 36) 1%N lenientWorld)).
Proof.
  apply (@SwapInAmtGivenOut_success lenient 10 (usdc 300) "eth" 0
           (NewDec 16) (NewDec 36) 1%N lenientWorld (eth 12)).
  vm_compute; reflexivity.
Defined.

(** X15 at work: pool 2 is priced at the square of 100000. *)
Lemma SwapInAmtGivenOut_price_outside_fixed_band_witness :
  exists r,
    SwapInAmtGivenOut 10 (usdc 300) "eth" 0 (NewDec 16) (NewDec 36) 2%N farWorld
      = (r, farWorld) /\ isOk r = false.
Proof.
  apply (SwapInAmtGivenOut_price_outside_fixed_band
           10 (usdc 300) "eth" 0 (NewDec 16) (NewDec 36) 2%N farWorld pool2).
  - vm_compute; reflexivity.
  - right. vm_compute; discriminate.
Defined.

(** X16 at work: 300 usdc asked of pool 1 at a fee of one. *)
Lemma CalcInAmtGivenOut_full_fee_witness :
  isOk (CalcInAmtGivenOut 10 world (usdc 300) "eth" OneDec (NewDec 16) (NewDec 36) 1)
    = false.
Proof.
  apply (CalcInAmtGivenOut_full_fee 10 world (usdc 300) "eth" (NewDec 16) (NewDec 36) 1%N).
  vm_compute; discriminate.
Defined.


(** X18 at work: the halving keeper turns 1000000 uosmo into uatom. *)
Lemma EndBlockLogic_returns_nil_witness :
  exists pool c0 rest tokenOutDenom sentCoins,
    @EndBlock.gammKeeper_GetPool EndBlock.halving EndBlock.chain 1%N = Ok pool /\
    @EndBlock.gammKeeper_GetTotalLiquidity EndBlock.halving EndBlock.chain = c0 :: rest /\
    ((Denom c0 = "uosmo" /\ exists c1 rest', rest = c1 :: rest' /\
                                           tokenOutDenom = Denom c1) \/
     (Denom c0 <> "uosmo" /\ tokenOutDenom = Denom c0)) /\
    @EndBlock.gammKeeper_SwapExactAmountIn EndBlock.halving EndBlock.chain
        EmptyString 1%N (mkCoin "uosmo" 1000000) tokenOutDenom 0
      = (Ok sentCoins,
         EndBlock.mkChain (EndBlock.total EndBlock.chain) true
                          [(1%N, mkCoin "uosmo" 1000000, "uatom")]) /\
    0 <= sentCoins /\ ValidateDenom tokenOutDenom = true.
Proof.
  apply (@EndBlockLogic_returns_nil EndBlock.halving EndBlock.chain).
  vm_compute; reflexivity.
Defined.

(** X19 at work: a chain without pool 1. *)
Lemma EndBlockLogic_returns_error_witness :
  (@EndBlock.gammKeeper_GetPool EndBlock.halving EndBlock.chainWithoutPool 1%N
     = Err (ErrCollaborator "pool not found") /\
   EndBlock.chainWithoutPool = EndBlock.chainWithoutPool) \/
  (exists pool tokenOutDenom,
      @EndBlock.gammKeeper_GetPool EndBlock.halving EndBlock.chainWithoutPool 1%N
        = Ok pool /\
      EndBlock.tokenOutDenomFor
        (@EndBlock.gammKeeper_GetTotalLiquidity EndBlock.halving EndBlock.chainWithoutPool)
        "uosmo" = inr tokenOutDenom /\
      @EndBlock.gammKeeper_SwapExactAmountIn EndBlock.halving EndBlock.chainWithoutPool
          EmptyString 1%N (mkCoin "uosmo" 1000000) tokenOutDenom 0
        = (Err (ErrCollaborator "pool not found"), EndBlock.chainWithoutPool)).
Proof.
  apply (@EndBlockLogic_returns_error EndBlock.halving EndBlock.chainWithoutPool).
  vm_compute; reflexivity.
Defined.

(** X20 at work: a chain whose total liquidity is empty. *)
Lemma EndBlockLogic_short_total_liquidity_witness :
  exists i,
    @EndBlock.EndBlockLogic EndBlock.halving EndBlock.chainWithoutLiquidity
      = EndBlock.Aborts (EndBlock.IndexOutOfRange i).
Proof.
  apply (@EndBlockLogic_short_total_liquidity EndBlock.halving
           EndBlock.chainWithoutLiquidity 1%N).
  - vm_compute; reflexivity.
  - left. reflexivity.
Defined.

(** X21 at work: the first pass of 500 usdc against a limit of 5.1; the
    next tick is at 8, the target is 5.1. *)
Lemma CalcOutAmtGivenIn_target_within_limit_witness :
  exists amountIn amountOut,
    ComputeSwapStep (sqrtPrice (initOutGivenIn pool1 (NewDec 500)))
      (Z.min (NewDec 8) 5100000000000000000)
      (NewDec 1303) (amountSpecifiedRemaining (initOutGivenIn pool1 (NewDec 500))) false
      = (5100000000000000000, amountIn, amountOut) /\
    369700000000000000000
      = amountSpecifiedRemaining (initOutGivenIn pool1 (NewDec 500)) - amountIn /\
    5109803921568627451
      = amountCalculated (initOutGivenIn pool1 (NewDec 500)) + amountOut.
Proof.
  apply (CalcOutAmtGivenIn_target_within_limit world pool1 1%N false 5100000000000000000
           (initOutGivenIn pool1 (NewDec 500))
           (mkSwapState 369700000000000000000 5109803921568627451
                        5100000000000000000 5 (Some (NewDec 1303)))
           5 8 true (NewDec 8) (NewDec 1303));
    vm_compute; reflexivity.
Defined.

(** X22 at work: 500 usdc for eth on pool 1. *)
Lemma CalcOutAmtGivenIn_returns_liquidity_witness :
  exists l, Some (NewDec 1303) = Some l.
Proof.
  apply (CalcOutAmtGivenIn_returns_liquidity 10 world (usdc 500) "eth" 0 limit26 1%N
           (usdc 130) (eth 5) 5 (Some (NewDec 1303)) 5100000000000000000).
  vm_compute; reflexivity.
Defined.

(** X23 at work: eth offered to pool 3, whose square-root price is one
    half. *)
Lemma SwapExactAmountIn_below_hard_limit_witness :
  SwapExactAmountIn 10 "alice" pool3 (eth 100) "usdc" 0 0 cheapWorld
    = (Err (ErrInvalidPriceLimit (NewDec 1)), cheapWorld).
Proof.
  apply (SwapExactAmountIn_below_hard_limit
           10 "alice" pool3 (eth 100) "usdc" 0 0 cheapWorld pool3 (NewDec 1));
    vm_compute; first [reflexivity | discriminate].
Defined.
